(** * HeishaMon entity definitions

    A shallow embedding of [custom_components/aquarea/definitions.py]: the
    value-transform functions (decoders and encoders) and the five descriptor
    tables that bind HeishaMon MQTT topics to Home Assistant entities.

    The file has three parts: a small model of the Python runtime the
    functions rely on ([Py], [Json]), the definitions of the module in source
    order, and the properties proved about them. *)

From Stdlib Require Import ZArith Ascii String List Bool Lia.
From Stdlib Require Import Numbers.DecimalString.
From Stdlib Require Numbers.DecimalFacts Numbers.DecimalPos Numbers.DecimalZ.
From Stdlib Require Import Floats.SpecFloat.
From stdpp Require Import gmap strings list.

Local Open Scope string_scope.

(** ** The Python runtime, as far as the module uses it

    Text is a [string] of bytes, ASCII or a UTF-8 encoding.  The readers of
    numbers, [int_of_str] and [float_of_str], follow CPython on ASCII text,
    [int_of_str] with the interpreter's default limit on the digits of an
    integer literal; the digits and spaces of other scripts, which CPython
    accepts as well, are not modelled. *)

Module Py.

(** Exceptions the built-ins used by the module can raise.
    [JSONDecodeError] is a subclass of [ValueError] in Python; it is kept
    apart here so that the origin of a failure stays visible. *)
Inductive exn :=
| ValueError
| JSONDecodeError
| AttributeError
| TypeError
| OverflowError
| RecursionError.

(** A computation that returns a value or raises. *)
Inductive exc (A : Type) :=
| Ok (a : A)
| Raise (e : exn).
Arguments Ok {A} a.
Arguments Raise {A} e.

#[global] Instance exc_ret : MRet exc := fun A a => Ok a.
#[global] Instance exc_bind : MBind exc := fun A B f m =>
  match m with
  | Ok a => f a
  | Raise e => Raise e
  end.
#[global] Instance exc_fmap : FMap exc := fun A B f m =>
  match m with
  | Ok a => Ok (f a)
  | Raise e => Raise e
  end.

Definition raises {A} (m : exc A) : bool :=
  match m with
  | Ok _ => false
  | Raise _ => true
  end.

Definition of_option {A} (e : exn) (o : option A) : exc A :=
  match o with
  | Some a => Ok a
  | None => Raise e
  end.

(** Binary64, the format of a Python [float]. *)
Definition prec : Z := 53.
Definition emax : Z := 1024.
Abbreviation float := spec_float.

(** Python objects: what [json.loads] can return and what the decoders
    produce.  A [dict] keeps its items in insertion order, keys unique. *)
#[local] Unset Elimination Schemes.
Inductive pyval :=
| PNone
| PBool (b : bool)
| PInt (n : Z)
| PFloat (f : float)
| PStr (s : string)
| PList (l : list pyval)
| PDict (d : list (string * pyval)).
#[local] Set Elimination Schemes.

(** [d.get(k)] on an insertion-ordered dict. *)
Fixpoint dict_get {V} (k : string) (d : list (string * V)) : option V :=
  match d with
  | [] => None
  | (k', v) :: d' => if String.eqb k' k then Some v else dict_get k d'
  end.

(** [d[k] = v]: an existing key keeps its position and takes the new value,
    a new key goes last. *)
Fixpoint dict_set {V} (k : string) (v : V) (d : list (string * V))
  : list (string * V) :=
  match d with
  | [] => [(k, v)]
  | (k', v') :: d' =>
      if String.eqb k' k then (k', v) :: d' else (k', v') :: dict_set k v d'
  end.

(** *** Characters *)

Definition is_digit (c : ascii) : bool :=
  let n := nat_of_ascii c in (48 <=? n)%nat && (n <=? 57)%nat.

Definition digit_val (c : ascii) : Z := Z.of_nat (nat_of_ascii c - 48).

(** [Py_ISSPACE]: the C-locale white space that [int] and [float] skip
    around an ASCII argument (tab, line feed, vertical tab, form feed,
    carriage return, space). *)
Definition is_space (c : ascii) : bool :=
  let n := nat_of_ascii c in
  ((9 <=? n)%nat && (n <=? 13)%nat) || (n =? 32)%nat.

Definition lower (c : ascii) : ascii :=
  let n := nat_of_ascii c in
  if ((65 <=? n)%nat && (n <=? 90)%nat) then ascii_of_nat (n + 32) else c.

Fixpoint lstrip (s : string) : string :=
  match s with
  | String c r => if is_space c then lstrip r else s
  | EmptyString => s
  end.

Fixpoint rstrip (s : string) : string :=
  match s with
  | String c r =>
      match rstrip r with
      | EmptyString => if is_space c then EmptyString else String c EmptyString
      | r' => String c r'
      end
  | EmptyString => s
  end.

Definition strip (s : string) : string := rstrip (lstrip s).

(** The underscore rule of numeric literals
    ([_Py_string_to_number_with_underscores] and the digit loop of
    [PyLong_FromString]): an underscore must stand between two digits.
    [prev] is the character before [s].  The result is the text with its
    underscores removed. *)
Fixpoint remove_underscores (prev : option ascii) (s : string) : option string :=
  match s with
  | EmptyString =>
      match prev with
      | Some "_"%char => None
      | _ => Some EmptyString
      end
  | String c r =>
      if Ascii.eqb c "_" then
        match prev with
        | Some p => if is_digit p then remove_underscores (Some c) r else None
        | None => None
        end
      else
        match prev with
        | Some "_"%char =>
            if is_digit c then String c <$> remove_underscores (Some c) r else None
        | _ => String c <$> remove_underscores (Some c) r
        end
  end.

(** A run of decimal digits: its value, its length and what follows. *)
Fixpoint scan_digits (acc : Z) (n : nat) (s : string) : Z * nat * string :=
  match s with
  | String c r =>
      if is_digit c then scan_digits (acc * 10 + digit_val c) (S n) r
      else (acc, n, s)
  | EmptyString => (acc, n, s)
  end.

Definition scan_sign (s : string) : bool * string :=
  match s with
  | String "-" r => (true, r)
  | String "+" r => (false, r)
  | _ => (false, s)
  end.

(** *** [int(str)] in base 10 *)

(** The default of [sys.int_max_str_digits]: [PyLong_FromString] refuses a
    decimal literal of more digits with a [ValueError].  Leading zeros
    count, the sign, the underscores and the surrounding white space do
    not. *)
Definition int_max_str_digits : Z := 4300.

Definition int_of_str (s : string) : option Z :=
  s ← remove_underscores None (strip s);
  let '(neg, s) := scan_sign s in
  match scan_digits 0 0 s with
  | (_, O, _) => None
  | (v, digits, EmptyString) =>
      if (Z.of_nat digits <=? int_max_str_digits)%Z
      then Some (if neg then - v else v)%Z
      else None
  | _ => None
  end.

(** [str(int)]: the decimal text of an integer.  CPython writes it for an
    integer of at most [int_max_str_digits] digits and raises ValueError
    beyond; there the text stands for a payload of that many digits. *)
Definition str_of_int (n : Z) : string := NilZero.string_of_int (Z.to_int n).

(** *** Floats *)

Definition float_zero (neg : bool) : float := S754_zero neg.
Definition float_inf (neg : bool) : float := S754_infinity neg.
Definition float_nan : float := S754_nan.

(** The float nearest to an integer (ties to even); infinite when the
    integer is out of range. *)
Definition float_of_Z (n : Z) : float := binary_normalize prec emax n 0 false.

(** The float nearest to [m * 10 ^ e] for a natural [m], with the sign
    [neg]: the correctly rounded conversion of a decimal literal. *)
Definition float_of_decimal (neg : bool) (m e : Z) : float :=
  match m with
  | Zpos p =>
      match e with
      | Zneg k =>
          let '(q, e', l) := SFdiv_core_binary prec emax m 0 (10 ^ Zpos k) 0 in
          binary_round_aux prec emax neg q e' l
      | _ => binary_round prec emax neg (Z.to_pos (m * 10 ^ e)) 0
      end
  | _ => float_zero neg
  end.

Definition float_is_zero (f : float) : bool :=
  match f with
  | S754_zero _ => true
  | _ => false
  end.

(** [x / y] on floats whose divisor is not zero. *)
Definition float_div (x y : float) : float := SFdiv prec emax x y.

(** [float(int)]. *)
Definition float_of_int (n : Z) : exc float :=
  match float_of_Z n with
  | S754_infinity _ => Raise OverflowError
  | f => Ok f
  end.

Fixpoint lower_str (s : string) : string :=
  match s with
  | String c r => String (lower c) (lower_str r)
  | EmptyString => s
  end.

(** The exponent of a decimal literal: present only when [e] or [E] is
    followed by at least one digit (after an optional sign); otherwise the
    scan stops before the letter. *)
Definition scan_exponent (s : string) : Z * string :=
  match s with
  | String c r =>
      if Ascii.eqb (lower c) "e" then
        let '(neg, r1) := scan_sign r in
        match scan_digits 0 0 r1 with
        | (_, O, _) => (0%Z, s)
        | (v, _, r2) => ((if neg then - v else v)%Z, r2)
        end
      else (0%Z, s)
  | EmptyString => (0%Z, s)
  end.

(** [float(str)]: white space stripped, underscores checked and removed,
    then a sign followed by [inf], [infinity], [nan] (in any case) or a
    decimal literal, and nothing else. *)
Definition float_of_str (s : string) : option float :=
  s ← remove_underscores None (strip s);
  let '(neg, body) := scan_sign s in
  let word := lower_str body in
  if String.eqb word "inf" || String.eqb word "infinity" then Some (float_inf neg)
  else if String.eqb word "nan" then Some float_nan
  else
    let '(vi, ni, r1) := scan_digits 0 0 body in
    let '(vf, nf, r2) :=
      match r1 with
      | String "." r => scan_digits 0 0 r
      | _ => (0%Z, O, r1)
      end in
    match (ni + nf)%nat with
    | O => None
    | _ =>
        match scan_exponent r2 with
        | (e, EmptyString) =>
            Some (float_of_decimal neg (vi * 10 ^ Z.of_nat nf + vf) (e - Z.of_nat nf))
        | _ => None
        end
    end.

(** The integer part of a finite float, towards zero. *)
Definition trunc (f : float) : option Z :=
  match f with
  | S754_zero _ => Some 0%Z
  | S754_finite s m e =>
      let a := match e with
               | Zneg k => Z.shiftr (Zpos m) (Zpos k)
               | _ => Z.shiftl (Zpos m) e
               end in
      Some (if s then - a else a)%Z
  | _ => None
  end.

(** *** Built-ins on objects *)

(** Truth value testing, as [if x:] does it. *)
Definition truthy (v : pyval) : bool :=
  match v with
  | PNone => false
  | PBool b => b
  | PInt n => negb (n =? 0)%Z
  | PFloat f => negb (float_is_zero f)
  | PStr s => negb (String.eqb s "")
  | PList l => match l with [] => false | _ => true end
  | PDict d => match d with [] => false | _ => true end
  end.

(** [float(x)]. *)
Definition builtin_float (v : pyval) : exc float :=
  match v with
  | PFloat f => Ok f
  | PInt n => float_of_int n
  | PBool b => Ok (float_of_Z (if b then 1 else 0))
  | PStr s => of_option ValueError (float_of_str s)
  | PNone | PList _ | PDict _ => Raise TypeError
  end.

(** [int(x)]. *)
Definition builtin_int (v : pyval) : exc Z :=
  match v with
  | PInt n => Ok n
  | PBool b => Ok (if b then 1 else 0)%Z
  | PFloat f =>
      match f with
      | S754_nan => Raise ValueError
      | S754_infinity _ => Raise OverflowError
      | _ => of_option ValueError (trunc f)
      end
  | PStr s => of_option ValueError (int_of_str s)
  | PNone | PList _ | PDict _ => Raise TypeError
  end.

End Py.

(** ** [json.loads]

    The decoder of the standard library in its default configuration
    (strict strings, [NaN] and [Infinity] accepted, objects read into
    dicts), following the scanner of CPython's [_json] module.  A document
    is ASCII or UTF-8 text; escapes above U+007F are stored UTF-8 encoded.
    An integer literal is read by [int_of_str], limit on its digits
    included; the interpreter's recursion limit is not part of the model. *)

Module Json.
Import Py.

Definition is_ws (c : ascii) : bool :=
  let n := nat_of_ascii c in
  (n =? 32)%nat || (n =? 9)%nat || (n =? 10)%nat || (n =? 13)%nat.

Fixpoint skip_ws (s : string) : string :=
  match s with
  | String c r => if is_ws c then skip_ws r else s
  | EmptyString => s
  end.

Definition hex_val (c : ascii) : option N :=
  let n := N_of_ascii c in
  if (48 <=? n)%N && (n <=? 57)%N then Some (n - 48)%N
  else if (97 <=? n)%N && (n <=? 102)%N then Some (n - 87)%N
  else if (65 <=? n)%N && (n <=? 70)%N then Some (n - 55)%N
  else None.

(** Four hexadecimal digits and what follows them. *)
Definition hex4 (s : string) : option (N * string) :=
  match s with
  | String a (String b (String c (String d r))) =>
      x ← hex_val a; y ← hex_val b; z ← hex_val c; w ← hex_val d;
      Some (((x * 16 + y) * 16 + z) * 16 + w, r)%N
  | _ => None
  end.

Definition byte (n : N) : ascii := ascii_of_N n.

(** A code point as UTF-8 (a lone surrogate takes the three-byte form). *)
Definition utf8 (cp : N) : string :=
  if (cp <? 128)%N then String (byte cp) EmptyString
  else if (cp <? 2048)%N then
    String (byte (192 + cp / 64)) (String (byte (128 + cp mod 64)) EmptyString)
  else if (cp <? 65536)%N then
    String (byte (224 + cp / 4096))
      (String (byte (128 + (cp / 64) mod 64))
         (String (byte (128 + cp mod 64)) EmptyString))
  else
    String (byte (240 + cp / 262144))
      (String (byte (128 + (cp / 4096) mod 64))
         (String (byte (128 + (cp / 64) mod 64))
            (String (byte (128 + cp mod 64)) EmptyString))).

Definition is_high_surrogate (c : N) : bool := (55296 <=? c)%N && (c <=? 56319)%N.
Definition is_low_surrogate (c : N) : bool := (56320 <=? c)%N && (c <=? 57343)%N.

(** [s] without its first character, when that is [c]. *)
Definition eat (c : ascii) (s : string) : option string :=
  match s with
  | String a r => if Ascii.eqb a c then Some r else None
  | EmptyString => None
  end.

(** A [\uXXXX] escape, after the [u]: the code point (with a following low
    surrogate joined to a high one) and what follows. *)
Definition unicode_escape (s : string) : exc (N * string) :=
  match hex4 s with
  | None => Raise JSONDecodeError
  | Some (c, r) =>
      if is_high_surrogate c then
        match eat "\" r ≫= eat "u" with
        | Some r1 =>
            match hex4 r1 with
            | Some (c2, r2) =>
                if is_low_surrogate c2
                then Ok (65536 + (c - 55296) * 1024 + (c2 - 56320), r2)%N
                else Ok (c, r)
            | None => Raise JSONDecodeError
            end
        | None => Ok (c, r)
        end
      else Ok (c, r)
  end.

(** The characters of a string literal, after its opening quote. *)
Fixpoint scanstring (fuel : nat) (s : string) : exc (string * string) :=
  match fuel with
  | O => Raise JSONDecodeError
  | S fuel =>
      match s with
      | EmptyString => Raise JSONDecodeError
      | String c r =>
          if Ascii.eqb c "034" then Ok (EmptyString, r)
          else if Ascii.eqb c "\" then
            match r with
            | EmptyString => Raise JSONDecodeError
            | String e r1 =>
                '(piece, r2) ←
                  (if Ascii.eqb e "u" then
                     '(cp, r2) ← unicode_escape r1; Ok (utf8 cp, r2)
                   else
                     ch ← of_option JSONDecodeError
                       (if Ascii.eqb e "034" then Some "034"%char
                        else if Ascii.eqb e "\" then Some "\"%char
                        else if Ascii.eqb e "/" then Some "/"%char
                        else if Ascii.eqb e "b" then Some "008"%char
                        else if Ascii.eqb e "f" then Some "012"%char
                        else if Ascii.eqb e "n" then Some "010"%char
                        else if Ascii.eqb e "r" then Some "013"%char
                        else if Ascii.eqb e "t" then Some "009"%char
                        else None);
                     Ok (String ch EmptyString, r1));
                '(tl, r3) ← scanstring fuel r2;
                Ok (piece +:+ tl, r3)
            end
          else if (nat_of_ascii c <=? 31)%nat then Raise JSONDecodeError
          else '(tl, r1) ← scanstring fuel r; Ok (String c tl, r1)
      end
  end.

(** The digits at the head of [s], as text, and what follows. *)
Fixpoint take_digits (s : string) : string * string :=
  match s with
  | String c r =>
      if is_digit c then let '(d, r') := take_digits r in (String c d, r')
      else (EmptyString, s)
  | EmptyString => (EmptyString, s)
  end.

(** The parts of a number literal, each with what follows it: an optional
    minus sign; the integer digits, a lone [0] or a run that does not start
    with one; a fraction, the point and at least one digit; an exponent, the
    letter, a sign if a character follows it, and at least one digit. *)
Definition minus_sign (s : string) : string * string :=
  match eat "-" s with
  | Some r => ("-", r)
  | None => (EmptyString, s)
  end.

Definition int_part (s : string) : option (string * string) :=
  match eat "0" s with
  | Some r => Some ("0", r)
  | None =>
      match take_digits s with
      | (EmptyString, _) => None
      | digits => Some digits
      end
  end.

Definition frac_part (s : string) : string * string :=
  match eat "." s with
  | Some r =>
      match take_digits r with
      | (EmptyString, _) => (EmptyString, s)
      | (ds, r') => ("." +:+ ds, r')
      end
  | None => (EmptyString, s)
  end.

Definition exponent_sign (s : string) : string * string :=
  match eat "-" s, eat "+" s with
  | Some (String _ _ as r), _ => ("-", r)
  | _, Some (String _ _ as r) => ("+", r)
  | _, _ => (EmptyString, s)
  end.

Definition exponent_part (s : string) : string * string :=
  match s with
  | String e r =>
      if Ascii.eqb e "e" || Ascii.eqb e "E" then
        let '(esign, r1) := exponent_sign r in
        match take_digits r1 with
        | (EmptyString, _) => (EmptyString, s)
        | (ds, r2) => (String e (esign +:+ ds), r2)
        end
      else (EmptyString, s)
  | EmptyString => (EmptyString, s)
  end.

(** The number literal at the head of [s]: whether it is a float, its
    text, and what follows. *)
Definition match_number (s : string) : option (bool * string * string) :=
  let '(sign, s1) := minus_sign s in
  '(digits, s2) ← int_part s1;
  let '(frac, s3) := frac_part s2 in
  let '(exponent, s4) := exponent_part s3 in
  let is_float := negb (String.eqb frac "") || negb (String.eqb exponent "") in
  Some (is_float, sign +:+ digits +:+ frac +:+ exponent, s4).

(** [s] without the prefix [p], when it starts with it. *)
Fixpoint strip_prefix (p s : string) : option string :=
  match p, s with
  | EmptyString, _ => Some s
  | String a p', String b s' => if Ascii.eqb a b then strip_prefix p' s' else None
  | _, _ => None
  end.

Definition number (s : string) : exc (pyval * string) :=
  match match_number s with
  | None => Raise JSONDecodeError
  | Some (true, text, r) => f ← of_option ValueError (float_of_str text); Ok (PFloat f, r)
  | Some (false, text, r) => n ← of_option ValueError (int_of_str text); Ok (PInt n, r)
  end.

(** A constant spelled [word], or else a number. *)
Definition constant (word : string) (v : pyval) (s : string) : exc (pyval * string) :=
  match strip_prefix word s with
  | Some r => Ok (v, r)
  | None => number s
  end.

(** One JSON value at the head of [s].  [fuel] bounds the depth of the
    calls, those of the object and array loops included; [loads] gives
    enough of it for every text ([loads_has_fuel], [loads_any_fuel]). *)
Fixpoint scan_once (fuel : nat) (s : string) {struct fuel} : exc (pyval * string) :=
  match fuel with
  | O => Raise RecursionError
  | S fuel =>
      match s with
      | EmptyString => Raise JSONDecodeError
      | String c r =>
          if Ascii.eqb c "034" then
            '(k, r') ← scanstring (String.length r) r; Ok (PStr k, r')
          else if Ascii.eqb c "{" then
            match eat "}" (skip_ws r) with
            | Some r' => Ok (PDict [], r')
            | None => parse_object fuel [] (skip_ws r)
            end
          else if Ascii.eqb c "[" then
            match eat "]" (skip_ws r) with
            | Some r' => Ok (PList [], r')
            | None => parse_array fuel [] (skip_ws r)
            end
          else if Ascii.eqb c "n" then constant "null" PNone s
          else if Ascii.eqb c "t" then constant "true" (PBool true) s
          else if Ascii.eqb c "f" then constant "false" (PBool false) s
          else if Ascii.eqb c "N" then constant "NaN" (PFloat float_nan) s
          else if Ascii.eqb c "I" then constant "Infinity" (PFloat (float_inf false)) s
          else if Ascii.eqb c "-" then constant "-Infinity" (PFloat (float_inf true)) s
          else number s
      end
  end
with parse_object (fuel : nat) (d : list (string * pyval)) (s : string)
       {struct fuel} : exc (pyval * string) :=
  match fuel with
  | O => Raise RecursionError
  | S fuel =>
      r ← of_option JSONDecodeError (eat "034" s);
      '(key, r1) ← scanstring (String.length r) r;
      r2 ← of_option JSONDecodeError (eat ":" (skip_ws r1));
      '(val, r3) ← scan_once fuel (skip_ws r2);
      let d := dict_set key val d in
      match eat "}" (skip_ws r3), eat "," (skip_ws r3) with
      | Some r4, _ => Ok (PDict d, r4)
      | _, Some r4 => parse_object fuel d (skip_ws r4)
      | _, _ => Raise JSONDecodeError
      end
  end
with parse_array (fuel : nat) (l : list pyval) (s : string)
       {struct fuel} : exc (pyval * string) :=
  match fuel with
  | O => Raise RecursionError
  | S fuel =>
      '(val, r1) ← scan_once fuel s;
      let l := (l ++ [val])%list in
      match eat "]" (skip_ws r1), eat "," (skip_ws r1) with
      | Some r2, _ => Ok (PList l, r2)
      | _, Some r2 => parse_array fuel l (skip_ws r2)
      | _, _ => Raise JSONDecodeError
      end
  end.

(** [json.loads(s)]: one value, white space around it, nothing else. *)
Definition loads (s : string) : exc pyval :=
  '(v, r) ← scan_once (2 * String.length s + 2) (skip_ws s);
  match skip_ws r with
  | EmptyString => Ok v
  | _ => Raise JSONDecodeError
  end.

(** A document written with single quotes in place of double quotes, for
    readable examples: [doc "{'wifi': 42}"] is the text [{"wifi": 42}]. *)
Fixpoint doc (s : string) : string :=
  match s with
  | String c r => String (if Ascii.eqb c "'" then "034"%char else c) (doc r)
  | EmptyString => s
  end.

End Json.

(** ** definitions.py *)

Import Py.

(** *** What the module imports from its host and its package *)

(** [_LOGGER]: a call appends a record; nothing reads them back. *)
Inductive log_level := DEBUG | INFO.
Definition log_record : Type := log_level * string.

(** What a call yields for its caller: a value or an exception, and the log
    records written on the way. *)
Record outcome := { result : exc pyval; logged : list log_record }.

(** Values of a Rocq type as Python objects. *)
Class ToPy (A : Type) := to_py : A -> pyval.
#[global] Instance pyval_to_py : ToPy pyval := fun v => v.
#[global] Instance bool_to_py : ToPy bool := PBool.
#[global] Instance Z_to_py : ToPy Z := PInt.
#[global] Instance float_to_py : ToPy float := PFloat.
#[global] Instance string_to_py : ToPy string := PStr.
#[global] Instance option_to_py `{ToPy A} : ToPy (option A) := fun o =>
  match o with
  | Some a => to_py a
  | None => PNone
  end.

(** The three shapes a function of the module returns in: a plain value, a
    value or an exception, a value with log records. *)
Class Returns (R : Type) := outcome_of : R -> outcome.
#[global] Instance returns_value `{ToPy A} : Returns A := fun a =>
  {| result := Ok (to_py a); logged := [] |}.
#[global] Instance returns_exc `{ToPy A} : Returns (exc A) := fun m =>
  {| result := to_py <$> m; logged := [] |}.
#[global] Instance returns_logged `{ToPy A} : Returns (A * list log_record) := fun p =>
  {| result := Ok (to_py p.1); logged := p.2 |}.

(** A [state] callable: from the raw payload to the entity state. *)
Definition decoder : Type := string -> outcome.
Definition decoder_of `{Returns R} (f : string -> R) : decoder :=
  fun value => outcome_of (f value).

(** [homeassistant.helpers.entity.EntityCategory], the members in use. *)
Inductive EntityCategory := CONFIG | DIAGNOSTIC.

(** [SensorDeviceClass], [BinarySensorDeviceClass] and [SensorStateClass],
    the members in use. *)
Inductive SensorDeviceClass := TEMPERATURE | FREQUENCY | DURATION | POWER | CURRENT | VOLTAGE.
Inductive BinarySensorDeviceClass := RUNNING | HEAT.
Inductive SensorStateClass := MEASUREMENT | TOTAL_INCREASING.

(** Modelled from the spec: [DeviceType] of [const.py], which is not among
    the sources: "which physical device owns this reading, main heat-pump
    unit vs. the bridge device itself". *)
Inductive DeviceType := HEATPUMP | HEISHAMON.

(** The host side of [update_device_model]: the instance, the part of an
    entity the hook reads, and the registry call it makes.  The registry
    belongs to Home Assistant; the hook's effect on it is the call. *)
Definition HomeAssistant : Type := nat.
Definition Identifiers : Type := list (string * string).
Record DeviceInfo := { identifiers : option Identifiers }.
Record SensorEntity := { device_info : option DeviceInfo }.
Inductive registry_call :=
| async_get_or_create (hass : HomeAssistant) (config_entry_id : string)
    (identifiers : option Identifiers) (model : string).
Record hook_effect := { calls : list registry_call; hook_logged : list log_record }.

(** *** The descriptor classes

    Each dataclass joins the three fields of [HeishaMonEntityDescription]
    ([heishamon_topic_id], [state], [device]) with the fields of the host's
    entity description that the tables set and with its own.  A field an
    entry does not pass holds its default, noted at the field. *)

Module Sensor.
(** Sensor entity description for HeishaMon. *)
Record HeishaMonSensorEntityDescription := {
  heishamon_topic_id : option string;            (* = None *)
  state : option decoder;                        (* = None: a method called when receiving a new value *)
  device : DeviceType;                           (* = DeviceType.HEATPUMP: device sensor belong to *)
  on_receive : option (HomeAssistant -> SensorEntity -> string -> string -> hook_effect);
                                                 (* = None: called with a lot of context *)
  key : string;
  name : string;
  device_class : option SensorDeviceClass;       (* = None *)
  native_unit_of_measurement : option string;    (* = None *)
  state_class : option SensorStateClass;         (* = None *)
  entity_category : option EntityCategory;       (* = None *)
}.
End Sensor.

Module Switch.
(** Switch entity description for HeishaMon. *)
Record HeishaMonSwitchEntityDescription := {
  heishamon_topic_id : option string;            (* = None *)
  state : option decoder;                        (* = None *)
  device : DeviceType;                           (* = DeviceType.HEATPUMP *)
  command_topic : string;                        (* = "void/topic" *)
  qos : Z;                                       (* = 0 *)
  payload_on : string;                           (* = "1" *)
  payload_off : string;                          (* = "0" *)
  retain : bool;                                 (* = False *)
  encoding : string;                             (* = "utf-8" *)
  key : string;
  name : string;
  device_class : option BinarySensorDeviceClass; (* = None *)
  entity_category : option EntityCategory;       (* = None *)
}.
End Switch.

Module BinarySensor.
(** Binary sensor entity description for HeishaMon. *)
Record HeishaMonBinarySensorEntityDescription := {
  heishamon_topic_id : option string;            (* = None *)
  state : option decoder;                        (* = None *)
  device : DeviceType;                           (* = DeviceType.HEATPUMP *)
  key : string;
  name : string;
  device_class : option BinarySensorDeviceClass; (* = None *)
}.
End BinarySensor.

Module Select.
(** Select entity description for HeishaMon *)
Record HeishaMonSelectEntityDescription := {
  heishamon_topic_id : option string;            (* = None *)
  state : option decoder;                        (* = None *)
  device : DeviceType;                           (* = DeviceType.HEATPUMP *)
  command_topic : string;                        (* = "void/topic" *)
  retain : bool;                                 (* = False *)
  encoding : string;                             (* = "utf-8" *)
  qos : Z;                                       (* = 0 *)
  state_to_mqtt : option (string -> outcome);    (* = None: function to transform selected option in value sent via mqtt *)
  key : string;
  name : string;
  options : list string;
  entity_category : option EntityCategory;       (* = None *)
}.
End Select.

Module Number.
(** Number entity description for HeishaMon *)
Record HeishaMonNumberEntityDescription := {
  heishamon_topic_id : option string;            (* = None *)
  state : option decoder;                        (* = None *)
  device : DeviceType;                           (* = DeviceType.HEATPUMP *)
  command_topic : string;                        (* = "void/topic" *)
  retain : bool;                                 (* = False *)
  encoding : string;                             (* = "utf-8" *)
  qos : Z;                                       (* = 0 *)
  state_to_mqtt : option (pyval -> outcome);     (* = None: function to transform selected option in value sent via mqtt *)
  key : string;
  name : string;
  device_class : option SensorDeviceClass;       (* = None *)
  native_unit_of_measurement : option string;    (* = None *)
  native_min_value : Z;
  native_max_value : Z;
  entity_category : option EntityCategory;       (* = None *)
}.
End Number.

Section Definitions.

(** Modelled from the spec: [HEATPUMP_MODELS] of [models.py], which is not
    among the sources: "a separate static model-number-to-name table".
    Its content is left open. *)
Context (HEATPUMP_MODELS : gmap string string).

Definition OPERATING_MODE_TO_STRING : list (string * string) := [
  ("0", "Heat only");
  (* "1": "Cool only" *)
  ("2", "Auto(Heat)");
  ("3", "DHW only");
  ("4", "Heat+DWH");
  (* "5": "Cool+DHW" *)
  ("6", "Auto(Heat)+DHW")
  (* "7": "Auto(Cool)" *)
  (* "8": "Auto(Cool)+DHW" *)
].

(** We intentionally don't support all modes for now *)
Definition operating_mode_to_state (value : string) : option string :=
  let options :=
    omap (fun '(mode, string) => if String.eqb string value then Some mode else None)
      OPERATING_MODE_TO_STRING in
  if (length options =? 0)%nat then None
  else options !! 0%nat.

Definition read_operating_mode_state (value : string) : string :=
  default ("Unknown operating mode value: " +:+ value)
    (dict_get value OPERATING_MODE_TO_STRING).

Definition read_power_mode_time (value : string) : exc Z :=
  n ← builtin_int (PStr value);
  Ok (n * 30)%Z.

Definition read_threeway_valve (value : string) : option string * list log_record :=
  if String.eqb value "0" then (Some "Room", [])
  else if String.eqb value "1" then (Some "Tank", [])
  else
    (None,
     [(INFO, "Reading unhandled value for ThreeWay Valve state: '" +:+ value +:+ "'")]).

Definition bit_to_bool (value : string) : option bool :=
  if String.eqb value "1" then Some true
  else if String.eqb value "0" then Some false
  else None.

Definition read_quiet_mode (value : string) : string :=
  (* values range from 0 to 4 *)
  if String.eqb value "4" then "Scheduled"
  else if String.eqb value "0" then "Off"
  else value.

Definition read_heatpump_model (value : string) : string :=
  default "Unknown model for HeishaMon" (HEATPUMP_MODELS !! value).

Definition write_quiet_mode (selected_value : string) : exc Z :=
  if String.eqb selected_value "Off" then Ok 0%Z
  else if String.eqb selected_value "Scheduled" then Ok 4%Z
  else builtin_int (PStr selected_value).

Definition update_device_model (hass : HomeAssistant) (entity : SensorEntity)
    (config_entry_id : string) (model : string) : hook_effect :=
  let identifiers :=
    match device_info entity with
    | Some info => identifiers info
    | None => None
    end in
  {| hook_logged := [(DEBUG, "Set model")];
     calls := [async_get_or_create hass config_entry_id identifiers model] |}.

(** [obj.get(key, None)]: only a dict has the method. *)
Definition method_get (obj : pyval) (key : string) : exc pyval :=
  match obj with
  | PDict d =>
      match dict_get key d with
      | Some v => Ok v
      | None => Ok PNone
      end
  | _ => Raise AttributeError
  end.

Definition read_stats_json (field_name : string) (json_doc : string) : exc (option float) :=
  obj ← Json.loads json_doc;
  field_value ← method_get obj field_name;
  if truthy field_value then Some <$> builtin_float field_value
  else Ok None.

Definition ms_to_secs (value : option float) : option float :=
  match value with
  | Some v => if truthy (to_py value) then Some (float_div v (float_of_Z 1000)) else None
  | None => None
  end.

(** *** The tables *)

Section NumberTable.
Import Number.

Definition NUMBERS : list HeishaMonNumberEntityDescription := [
  {| heishamon_topic_id := Some "SET11";
     key := "panasonic_heat_pump/main/DHW_Target_Temp";
     command_topic := "panasonic_heat_pump/commands/SetDHWTemp";
     name := "DHW Target Temperature"; state := Some (decoder_of (builtin_int ∘ PStr));
     device := HEATPUMP; entity_category := Some CONFIG;
     device_class := Some TEMPERATURE; native_unit_of_measurement := Some "°C";
     native_min_value := 48%Z; native_max_value := 60%Z; retain := false;
     encoding := "utf-8"; qos := 0%Z;
     state_to_mqtt := Some (fun value => outcome_of (builtin_int value)) |}
].

End NumberTable.

Section SelectTable.
Import Select.

Definition SELECTS : list HeishaMonSelectEntityDescription := [
  {| heishamon_topic_id := Some "SET3";
     key := "panasonic_heat_pump/main/Quiet_Mode_Level";
     command_topic := "panasonic_heat_pump/commands/SetQuietMode";
     name := "Aquarea Quiet Mode"; state := Some (decoder_of read_quiet_mode);
     device := HEATPUMP; entity_category := Some CONFIG;
     options := ["Off"; "1"; "2"; "3"; "Scheduled"]; retain := false;
     encoding := "utf-8"; qos := 0%Z;
     state_to_mqtt := Some (decoder_of write_quiet_mode) |};
  {| heishamon_topic_id := Some "SET9";
     key := "panasonic_heat_pump/main/Operating_Mode_State";
     command_topic := "panasonic_heat_pump/commands/SetOperationMode";
     name := "Aquarea Mode"; state := Some (decoder_of read_operating_mode_state);
     device := HEATPUMP; entity_category := None;
     options := OPERATING_MODE_TO_STRING.*2; retain := false; encoding := "utf-8";
     qos := 0%Z; state_to_mqtt := Some (decoder_of operating_mode_to_state) |}
].

End SelectTable.

Section SwitchTable.
Import Switch.

Definition MQTT_SWITCHES : list HeishaMonSwitchEntityDescription := [
  {| heishamon_topic_id := Some "TOP19";
     key := "panasonic_heat_pump/main/Holiday_Mode_State";
     command_topic := "panasonic_heat_pump/main/Holiday_Mode_State";
     name := "Aquarea Holiday Mode"; state := Some (decoder_of bit_to_bool);
     device := HEATPUMP; entity_category := Some CONFIG; device_class := None;
     qos := 0%Z; payload_on := "1"; payload_off := "0"; retain := false;
     encoding := "utf-8" |};
  {| heishamon_topic_id := Some "TOP0";
     key := "panasonic_heat_pump/main/Heatpump_State";
     command_topic := "panasonic_heat_pump/commands/SetHeatpump";
     name := "Aquarea Main Power"; state := Some (decoder_of bit_to_bool);
     device := HEATPUMP; entity_category := None; device_class := Some RUNNING;
     qos := 0%Z; payload_on := "1"; payload_off := "0"; retain := false;
     encoding := "utf-8" |};
  {| heishamon_topic_id := Some "TOP2";
     key := "panasonic_heat_pump/main/Force_DHW_State";
     command_topic := "panasonic_heat_pump/commands/SetForceDHW";
     name := "Aquarea Force DHW Mode"; state := Some (decoder_of bit_to_bool);
     device := HEATPUMP; entity_category := Some CONFIG; device_class := None;
     qos := 0%Z; payload_on := "1"; payload_off := "0"; retain := false;
     encoding := "utf-8" |};
  {| heishamon_topic_id := Some "SET24";
     key := "panasonic_heat_pump/main/Main_Schedule_State";
     command_topic := "panasonic_heat_pump/commands/SetMainSchedule";
     name := "Aquarea Main thermosthat schedule";
     state := Some (decoder_of bit_to_bool); device := HEATPUMP;
     entity_category := Some CONFIG; device_class := None; qos := 0%Z;
     payload_on := "1"; payload_off := "0"; retain := false; encoding := "utf-8" |}
].

End SwitchTable.

Section BinarySensorTable.
Import BinarySensor.

Definition BINARY_SENSORS : list HeishaMonBinarySensorEntityDescription := [
  {| heishamon_topic_id := Some "TOP3";
     key := "panasonic_heat_pump/main/Quiet_Mode_Schedule";
     name := "Aquarea Quiet Mode Schedule"; state := Some (decoder_of bit_to_bool);
     device := HEATPUMP; device_class := None |};
  {| heishamon_topic_id := Some "TOP26";
     key := "panasonic_heat_pump/main/Defrosting_State";
     name := "Aquarea Defrost State"; state := Some (decoder_of bit_to_bool);
     device := HEATPUMP; device_class := Some HEAT |};
  {| heishamon_topic_id := Some "TOP58";
     key := "panasonic_heat_pump/main/DHW_Heater_State";
     name := "Aquarea Tank Heater Enabled"; state := Some (decoder_of bit_to_bool);
     device := HEATPUMP; device_class := Some HEAT |};
  {| heishamon_topic_id := Some "TOP59";
     key := "panasonic_heat_pump/main/Room_Heater_State";
     name := "Aquarea Room Heater Enabled"; state := Some (decoder_of bit_to_bool);
     device := HEATPUMP; device_class := Some HEAT |};
  {| heishamon_topic_id := Some "TOP60";
     key := "panasonic_heat_pump/main/Internal_Heater_State";
     name := "Aquarea Internal Heater State"; state := Some (decoder_of bit_to_bool);
     device := HEATPUMP; device_class := Some HEAT |};
  {| heishamon_topic_id := Some "TOP61";
     key := "panasonic_heat_pump/main/External_Heater_State";
     name := "Aquarea External Heater State"; state := Some (decoder_of bit_to_bool);
     device := HEATPUMP; device_class := Some HEAT |}
].

End BinarySensorTable.

Section SensorTable.
Import Sensor.

Definition SENSORS : list HeishaMonSensorEntityDescription := [
  {| heishamon_topic_id := Some "TOP1"; key := "panasonic_heat_pump/main/Pump_Flow";
     name := "Aquarea Pump Flow"; state := None; device := HEATPUMP; on_receive := None;
     device_class := None; native_unit_of_measurement := Some "L/min";
     state_class := None; entity_category := None |};
  {| heishamon_topic_id := Some "TOP4";
     key := "panasonic_heat_pump/main/Operating_Mode_State"; name := "Aquarea Mode";
     state := Some (decoder_of read_operating_mode_state); device := HEATPUMP;
     on_receive := None; device_class := None; native_unit_of_measurement := None;
     state_class := None; entity_category := None |};
  {| heishamon_topic_id := Some "TOP5";
     key := "panasonic_heat_pump/main/Main_Inlet_Temp";
     name := "Aquarea Inlet Temperature"; state := None; device := HEATPUMP;
     on_receive := None; device_class := Some TEMPERATURE;
     native_unit_of_measurement := Some "°C"; state_class := None;
     entity_category := None |};
  {| heishamon_topic_id := Some "TOP6";
     key := "panasonic_heat_pump/main/Main_Outlet_Temp";
     name := "Aquarea Outlet Temperature"; state := None; device := HEATPUMP;
     on_receive := None; device_class := Some TEMPERATURE;
     native_unit_of_measurement := Some "°C"; state_class := None;
     entity_category := None |};
  {| heishamon_topic_id := Some "TOP7";
     key := "panasonic_heat_pump/main/Main_Target_Temp";
     name := "Aquarea Outlet Target Temperature"; state := None; device := HEATPUMP;
     on_receive := None; device_class := Some TEMPERATURE;
     native_unit_of_measurement := Some "°C"; state_class := None;
     entity_category := None |};
  {| heishamon_topic_id := Some "TOP8";
     key := "panasonic_heat_pump/main/Compressor_Freq";
     name := "Aquarea Compressor Frequency"; state := None; device := HEATPUMP;
     on_receive := None; device_class := Some FREQUENCY;
     native_unit_of_measurement := Some "Hz"; state_class := None;
     entity_category := Some DIAGNOSTIC |};
  {| heishamon_topic_id := Some "TOP9";
     key := "panasonic_heat_pump/main/DHW_Target_Temp";
     name := "Aquarea Tank Set Temperature"; state := None; device := HEATPUMP;
     on_receive := None; device_class := Some TEMPERATURE;
     native_unit_of_measurement := Some "°C"; state_class := None;
     entity_category := Some CONFIG |};
  {| heishamon_topic_id := Some "TOP10"; key := "panasonic_heat_pump/main/DHW_Temp";
     name := "Aquarea Tank Actual Tank Temperature"; state := None; device := HEATPUMP;
     on_receive := None; device_class := Some TEMPERATURE;
     native_unit_of_measurement := Some "°C"; state_class := Some MEASUREMENT;
     entity_category := None |};
  {| heishamon_topic_id := Some "TOP11";
     key := "panasonic_heat_pump/main/Operations_Hours";
     name := "Aquarea Compressor Operating Hours"; state := None; device := HEATPUMP;
     on_receive := None; device_class := Some DURATION;
     native_unit_of_measurement := Some "Hours"; state_class := Some TOTAL_INCREASING;
     entity_category := Some DIAGNOSTIC |};
  {| heishamon_topic_id := Some "TOP12";
     key := "panasonic_heat_pump/main/Operations_Counter";
     name := "Aquarea Compressor Start/Stop Counter"; state := None; device := HEATPUMP;
     on_receive := None; device_class := Some DURATION;
     native_unit_of_measurement := None; state_class := Some TOTAL_INCREASING;
     entity_category := Some DIAGNOSTIC |};
  {| heishamon_topic_id := Some "TOP14"; key := "panasonic_heat_pump/main/Outside_Temp";
     name := "Aquarea Outdoor Ambient"; state := None; device := HEATPUMP;
     on_receive := None; device_class := Some TEMPERATURE;
     native_unit_of_measurement := Some "°C"; state_class := Some MEASUREMENT;
     entity_category := None |};
  {| heishamon_topic_id := Some "TOP15";
     key := "panasonic_heat_pump/main/Heat_Energy_Production";
     name := "Aquarea Power Produced"; state := None; device := HEATPUMP;
     on_receive := None; device_class := Some POWER;
     native_unit_of_measurement := Some "W"; state_class := Some MEASUREMENT;
     entity_category := None |};
  {| heishamon_topic_id := Some "TOP16";
     key := "panasonic_heat_pump/main/Heat_Energy_Consumption";
     name := "Aquarea Power Consumed"; state := None; device := HEATPUMP;
     on_receive := None; device_class := Some POWER;
     native_unit_of_measurement := Some "W"; state_class := Some MEASUREMENT;
     entity_category := None |};
  {| heishamon_topic_id := Some "TOP17";
     key := "panasonic_heat_pump/main/Powerful_Mode_Time";
     name := "Aquarea Powerful Mode"; state := Some (decoder_of read_power_mode_time);
     device := HEATPUMP; on_receive := None; device_class := Some DURATION;
     native_unit_of_measurement := Some "Min"; state_class := None;
     entity_category := None |};
  {| heishamon_topic_id := Some "TOP20";
     key := "panasonic_heat_pump/main/ThreeWay_Valve_State";
     name := "Aquarea 3-way Valve"; state := Some (decoder_of read_threeway_valve);
     device := HEATPUMP; on_receive := None; device_class := None;
     native_unit_of_measurement := None; state_class := None; entity_category := None |};
  {| heishamon_topic_id := Some "TOP21";
     key := "panasonic_heat_pump/main/Outside_Pipe_Temp";
     name := "Aquarea Outdoor Pipe Temperature"; state := None; device := HEATPUMP;
     on_receive := None; device_class := Some TEMPERATURE;
     native_unit_of_measurement := Some "°C"; state_class := None;
     entity_category := None |};
  {| heishamon_topic_id := Some "TOP22";
     key := "panasonic_heat_pump/main/DHW_Heat_Delta";
     name := "Aquarea DHW heating delta"; state := None; device := HEATPUMP;
     on_receive := None; device_class := Some TEMPERATURE;
     native_unit_of_measurement := Some "°C"; state_class := None;
     entity_category := None |};
  {| heishamon_topic_id := Some "TOP23"; key := "panasonic_heat_pump/main/Heat_Delta";
     name := "Aquarea Heat delta"; state := None; device := HEATPUMP;
     on_receive := None; device_class := Some TEMPERATURE;
     native_unit_of_measurement := Some "°C"; state_class := None;
     entity_category := None |};
  {| heishamon_topic_id := Some "TOP24"; key := "panasonic_heat_pump/main/Cool_Delta";
     name := "Aquarea Cool delta"; state := None; device := HEATPUMP;
     on_receive := None; device_class := Some TEMPERATURE;
     native_unit_of_measurement := Some "°C"; state_class := None;
     entity_category := None |};
  {| heishamon_topic_id := Some "TOP25";
     key := "panasonic_heat_pump/main/DHW_Holiday_Shift_Temp";
     name := "Aquarea DHW Holiday shift temperature"; state := None; device := HEATPUMP;
     on_receive := None; device_class := Some TEMPERATURE;
     native_unit_of_measurement := Some "°C"; state_class := None;
     entity_category := None |};
  {| heishamon_topic_id := Some "TOP27";
     key := "panasonic_heat_pump/main/Z1_Heat_Request_Temp";
     name := "Aquarea Zone 1 Heat Requested shift"; state := None; device := HEATPUMP;
     on_receive := None; device_class := Some TEMPERATURE;
     native_unit_of_measurement := Some "°C"; state_class := None;
     entity_category := None |};
  {| heishamon_topic_id := Some "TOP28";
     key := "panasonic_heat_pump/main/Z1_Cool_Request_Temp";
     name := "Aquarea Zone 1 Cool Requested shift"; state := None; device := HEATPUMP;
     on_receive := None; device_class := Some TEMPERATURE;
     native_unit_of_measurement := Some "°C"; state_class := None;
     entity_category := None |};
  {| heishamon_topic_id := Some "TOP29";
     key := "panasonic_heat_pump/main/Z1_Heat_Curve_Target_High_Temp";
     name := "Aquarea Zone 1 Target temperature at lowest point on heating curve";
     state := None; device := HEATPUMP; on_receive := None;
     device_class := Some TEMPERATURE; native_unit_of_measurement := Some "°C";
     state_class := None; entity_category := None |};
  {| heishamon_topic_id := Some "TOP30";
     key := "panasonic_heat_pump/main/Z1_Heat_Curve_Target_Low_Temp";
     name := "Aquarea Zone 1 Target temperature at highest point on heating curve";
     state := None; device := HEATPUMP; on_receive := None;
     device_class := Some TEMPERATURE; native_unit_of_measurement := Some "°C";
     state_class := None; entity_category := None |};
  {| heishamon_topic_id := Some "TOP31";
     key := "panasonic_heat_pump/main/Z1_Heat_Curve_Outside_High_Temp";
     name := "Aquarea Zone 1 Lowest outside temperature on the heating curve";
     state := None; device := HEATPUMP; on_receive := None;
     device_class := Some TEMPERATURE; native_unit_of_measurement := Some "°C";
     state_class := None; entity_category := None |};
  {| heishamon_topic_id := Some "TOP32";
     key := "panasonic_heat_pump/main/Z1_Heat_Curve_Outside_Low_Temp";
     name := "Aquarea Zone 1 Highest outside temperature on the heating curve";
     state := None; device := HEATPUMP; on_receive := None;
     device_class := Some TEMPERATURE; native_unit_of_measurement := Some "°C";
     state_class := None; entity_category := None |};
  {| heishamon_topic_id := Some "TOP33";
     key := "panasonic_heat_pump/main/Room_Thermostat_Temp";
     name := "Aquarea Remote control thermosthat temperature"; state := None;
     device := HEATPUMP; on_receive := None; device_class := Some TEMPERATURE;
     native_unit_of_measurement := Some "°C"; state_class := None;
     entity_category := None |};
  {| heishamon_topic_id := Some "TOP34";
     key := "panasonic_heat_pump/main/Z2_Heat_Request_Temp";
     name := "Aquarea Zone 2 Heat Requested shift"; state := None; device := HEATPUMP;
     on_receive := None; device_class := Some TEMPERATURE;
     native_unit_of_measurement := Some "°C"; state_class := None;
     entity_category := None |};
  {| heishamon_topic_id := Some "TOP35";
     key := "panasonic_heat_pump/main/Z2_Cool_Request_Temp";
     name := "Aquarea Zone 2 Cool Requested shift"; state := None; device := HEATPUMP;
     on_receive := None; device_class := Some TEMPERATURE;
     native_unit_of_measurement := Some "°C"; state_class := None;
     entity_category := None |};
  {| heishamon_topic_id := Some "TOP36";
     key := "panasonic_heat_pump/main/Z1_Water_Temp";
     name := "Aquarea Zone 1 water outlet temperature"; state := None;
     device := HEATPUMP; on_receive := None; device_class := Some TEMPERATURE;
     native_unit_of_measurement := Some "°C"; state_class := None;
     entity_category := None |};
  {| heishamon_topic_id := Some "TOP37";
     key := "panasonic_heat_pump/main/Z2_Water_Temp";
     name := "Aquarea Zone 2 water outlet temperature"; state := None;
     device := HEATPUMP; on_receive := None; device_class := Some TEMPERATURE;
     native_unit_of_measurement := Some "°C"; state_class := None;
     entity_category := None |};
  {| heishamon_topic_id := Some "TOP38";
     key := "panasonic_heat_pump/main/Cool_Energy_Production";
     name := "Aquarea Thermal Cooling power production"; state := None;
     device := HEATPUMP; on_receive := None; device_class := Some POWER;
     native_unit_of_measurement := Some "W"; state_class := None;
     entity_category := None |};
  {| heishamon_topic_id := Some "TOP39";
     key := "panasonic_heat_pump/main/Cool_Energy_Consumption";
     name := "Aquarea Thermal Cooling power consumption"; state := None;
     device := HEATPUMP; on_receive := None; device_class := Some POWER;
     native_unit_of_measurement := Some "W"; state_class := None;
     entity_category := None |};
  {| heishamon_topic_id := Some "TOP40";
     key := "panasonic_heat_pump/main/DHW_Energy_Production";
     name := "Aquarea DHW Power Produced"; state := None; device := HEATPUMP;
     on_receive := None; device_class := Some POWER;
     native_unit_of_measurement := Some "W"; state_class := Some MEASUREMENT;
     entity_category := None |};
  {| heishamon_topic_id := Some "TOP41";
     key := "panasonic_heat_pump/main/DHW_Energy_Consumption";
     name := "Aquarea DHW Power Consumed"; state := None; device := HEATPUMP;
     on_receive := None; device_class := Some POWER;
     native_unit_of_measurement := Some "W"; state_class := Some MEASUREMENT;
     entity_category := None |};
  {| heishamon_topic_id := Some "TOP42";
     key := "panasonic_heat_pump/main/Z1_Water_Target_Temp";
     name := "Aquarea Zone 1 water target temperature"; state := None;
     device := HEATPUMP; on_receive := None; device_class := Some TEMPERATURE;
     native_unit_of_measurement := Some "°C"; state_class := None;
     entity_category := None |};
  {| heishamon_topic_id := Some "TOP43";
     key := "panasonic_heat_pump/main/Z2_Water_Target_Temp";
     name := "Aquarea Zone 2 water target temperature"; state := None;
     device := HEATPUMP; on_receive := None; device_class := Some TEMPERATURE;
     native_unit_of_measurement := Some "°C"; state_class := None;
     entity_category := None |};
  {| heishamon_topic_id := Some "TOP44"; key := "panasonic_heat_pump/main/Error";
     name := "Aquarea Last Error"; state := None; device := HEATPUMP;
     on_receive := None; device_class := None; native_unit_of_measurement := None;
     state_class := None; entity_category := Some DIAGNOSTIC |};
  {| heishamon_topic_id := Some "TOP45";
     key := "panasonic_heat_pump/main/Room_Holiday_Shift_Temp";
     name := "Aquarea Room heating Holiday shift temperature"; state := None;
     device := HEATPUMP; on_receive := None; device_class := Some TEMPERATURE;
     native_unit_of_measurement := Some "°C"; state_class := None;
     entity_category := None |};
  {| heishamon_topic_id := Some "TOP46"; key := "panasonic_heat_pump/main/Buffer_Temp";
     name := "Aquarea Actual Buffer temperature"; state := None; device := HEATPUMP;
     on_receive := None; device_class := Some TEMPERATURE;
     native_unit_of_measurement := Some "°C"; state_class := None;
     entity_category := None |};
  {| heishamon_topic_id := Some "TOP47"; key := "panasonic_heat_pump/main/Solar_Temp";
     name := "Aquarea Actual Solar temperature"; state := None; device := HEATPUMP;
     on_receive := None; device_class := Some TEMPERATURE;
     native_unit_of_measurement := Some "°C"; state_class := None;
     entity_category := None |};
  {| heishamon_topic_id := Some "TOP48"; key := "panasonic_heat_pump/main/Pool_Temp";
     name := "Aquarea Actual Pool temperature"; state := None; device := HEATPUMP;
     on_receive := None; device_class := Some TEMPERATURE;
     native_unit_of_measurement := Some "°C"; state_class := None;
     entity_category := None |};
  {| heishamon_topic_id := Some "TOP49";
     key := "panasonic_heat_pump/main/Main_Hex_Outlet_Temp";
     name := "Aquarea Main HEX Outlet Temperature"; state := None; device := HEATPUMP;
     on_receive := None; device_class := Some TEMPERATURE;
     native_unit_of_measurement := Some "°C"; state_class := None;
     entity_category := None |};
  {| heishamon_topic_id := Some "TOP50";
     key := "panasonic_heat_pump/main/Discharge_Temp";
     name := "Aquarea Discharge Temperature"; state := None; device := HEATPUMP;
     on_receive := None; device_class := Some TEMPERATURE;
     native_unit_of_measurement := Some "°C"; state_class := None;
     entity_category := None |};
  {| heishamon_topic_id := Some "TOP51";
     key := "panasonic_heat_pump/main/Inside_Pipe_Temp";
     name := "Aquarea Inside Pipe Temperature"; state := None; device := HEATPUMP;
     on_receive := None; device_class := Some TEMPERATURE;
     native_unit_of_measurement := Some "°C"; state_class := None;
     entity_category := None |};
  {| heishamon_topic_id := Some "TOP52"; key := "panasonic_heat_pump/main/Defrost_Temp";
     name := "Aquarea Defrost Temperature"; state := None; device := HEATPUMP;
     on_receive := None; device_class := Some TEMPERATURE;
     native_unit_of_measurement := Some "°C"; state_class := None;
     entity_category := None |};
  {| heishamon_topic_id := Some "TOP53";
     key := "panasonic_heat_pump/main/Eva_Outlet_Temp";
     name := "Aquarea Eva Outlet Temperature"; state := None; device := HEATPUMP;
     on_receive := None; device_class := Some TEMPERATURE;
     native_unit_of_measurement := Some "°C"; state_class := None;
     entity_category := None |};
  {| heishamon_topic_id := Some "TOP54";
     key := "panasonic_heat_pump/main/Bypass_Outlet_Temp";
     name := "Aquarea Bypass Outlet Temperature"; state := None; device := HEATPUMP;
     on_receive := None; device_class := Some TEMPERATURE;
     native_unit_of_measurement := Some "°C"; state_class := None;
     entity_category := None |};
  {| heishamon_topic_id := Some "TOP55"; key := "panasonic_heat_pump/main/Ipm_Temp";
     name := "Aquarea Ipm Temperature"; state := None; device := HEATPUMP;
     on_receive := None; device_class := Some TEMPERATURE;
     native_unit_of_measurement := Some "°C"; state_class := None;
     entity_category := None |};
  {| heishamon_topic_id := Some "TOP56"; key := "panasonic_heat_pump/main/Z1_Temp";
     name := "Aquarea Zone1: Actual Temperature"; state := None; device := HEATPUMP;
     on_receive := None; device_class := Some TEMPERATURE;
     native_unit_of_measurement := Some "°C"; state_class := None;
     entity_category := None |};
  {| heishamon_topic_id := Some "TOP57"; key := "panasonic_heat_pump/main/Z2_Temp";
     name := "Aquarea Zone1: Actual Temperature"; state := None; device := HEATPUMP;
     on_receive := None; device_class := Some TEMPERATURE;
     native_unit_of_measurement := Some "°C"; state_class := None;
     entity_category := None |};
  {| heishamon_topic_id := Some "TOP62";
     key := "panasonic_heat_pump/main/Fan1_Motor_Speed"; name := "Aquarea Fan 1 Speed";
     state := None; device := HEATPUMP; on_receive := None; device_class := None;
     native_unit_of_measurement := Some "R/min"; state_class := None;
     entity_category := None |};
  {| heishamon_topic_id := Some "TOP63";
     key := "panasonic_heat_pump/main/Fan2_Motor_Speed"; name := "Aquarea Fan 2 Speed";
     state := None; device := HEATPUMP; on_receive := None; device_class := None;
     native_unit_of_measurement := Some "R/min"; state_class := None;
     entity_category := None |};
  {| heishamon_topic_id := Some "TOP64";
     key := "panasonic_heat_pump/main/High_Pressure"; name := "Aquarea High pressure";
     state := None; device := HEATPUMP; on_receive := None; device_class := None;
     native_unit_of_measurement := Some "Kgf/cm2"; state_class := None;
     entity_category := None |};
  {| heishamon_topic_id := Some "TOP65"; key := "panasonic_heat_pump/main/Pump_Speed";
     name := "Aquarea Pump Speed"; state := None; device := HEATPUMP;
     on_receive := None; device_class := None;
     native_unit_of_measurement := Some "R/min"; state_class := None;
     entity_category := None |};
  {| heishamon_topic_id := Some "TOP66"; key := "panasonic_heat_pump/main/Low_Pressure";
     name := "Aquarea Low Pressure"; state := None; device := HEATPUMP;
     on_receive := None; device_class := None;
     native_unit_of_measurement := Some "Kgf/cm2"; state_class := None;
     entity_category := None |};
  {| heishamon_topic_id := Some "TOP67";
     key := "panasonic_heat_pump/main/Compressor_Current";
     name := "Aquarea Compressor Current"; state := None; device := HEATPUMP;
     on_receive := None; device_class := Some CURRENT;
     native_unit_of_measurement := Some "A"; state_class := None;
     entity_category := Some DIAGNOSTIC |};
  {| heishamon_topic_id := Some "TOP92";
     key := "panasonic_heat_pump/main/Heat_Pump_Model";
     name := "Aquarea Heatpump model"; state := Some (decoder_of read_heatpump_model);
     device := HEATPUMP; on_receive := Some update_device_model; device_class := None;
     native_unit_of_measurement := None; state_class := None; entity_category := None |};
  {| heishamon_topic_id := Some "STAT1_rssi"; key := "panasonic_heat_pump/stats";
     name := "HeishaMon RSSI"; state := Some (decoder_of (read_stats_json "wifi"));
     device := HEISHAMON; on_receive := None; device_class := None;
     native_unit_of_measurement := Some "%"; state_class := None;
     entity_category := Some DIAGNOSTIC |};
  {| heishamon_topic_id := Some "STAT1_uptime"; key := "panasonic_heat_pump/stats";
     name := "HeishaMon Uptime";
     state := Some (decoder_of (fun json_doc => ms_to_secs <$> read_stats_json "uptime" json_doc));
     device := HEISHAMON; on_receive := None; device_class := Some DURATION;
     native_unit_of_measurement := Some "s"; state_class := None;
     entity_category := Some DIAGNOSTIC |};
  {| heishamon_topic_id := Some "STAT1_total_reads"; key := "panasonic_heat_pump/stats";
     name := "HeishaMon Total reads";
     state := Some (decoder_of (read_stats_json "total reads")); device := HEISHAMON;
     on_receive := None; device_class := None; native_unit_of_measurement := None;
     state_class := Some TOTAL_INCREASING; entity_category := Some DIAGNOSTIC |};
  {| heishamon_topic_id := Some "STAT1_good_reads"; key := "panasonic_heat_pump/stats";
     name := "HeishaMon Good reads";
     state := Some (decoder_of (read_stats_json "good reads")); device := HEISHAMON;
     on_receive := None; device_class := None; native_unit_of_measurement := None;
     state_class := Some TOTAL_INCREASING; entity_category := Some DIAGNOSTIC |};
  {| heishamon_topic_id := Some "STAT1_badcrc_reads";
     key := "panasonic_heat_pump/stats"; name := "HeishaMon bad CRC reads";
     state := Some (decoder_of (read_stats_json "bad crc reads")); device := HEISHAMON;
     on_receive := None; device_class := None; native_unit_of_measurement := None;
     state_class := Some TOTAL_INCREASING; entity_category := Some DIAGNOSTIC |};
  {| heishamon_topic_id := Some "STAT1_badheader_reads";
     key := "panasonic_heat_pump/stats"; name := "HeishaMon bad header reads";
     state := Some (decoder_of (read_stats_json "bad header reads"));
     device := HEISHAMON; on_receive := None; device_class := None;
     native_unit_of_measurement := None; state_class := Some TOTAL_INCREASING;
     entity_category := Some DIAGNOSTIC |};
  {| heishamon_topic_id := Some "STAT1_tooshort_reads";
     key := "panasonic_heat_pump/stats"; name := "HeishaMon too short reads";
     state := Some (decoder_of (read_stats_json "too short reads"));
     device := HEISHAMON; on_receive := None; device_class := None;
     native_unit_of_measurement := None; state_class := Some TOTAL_INCREASING;
     entity_category := Some DIAGNOSTIC |};
  {| heishamon_topic_id := Some "STAT1_toolong_reads";
     key := "panasonic_heat_pump/stats"; name := "HeishaMon too long reads";
     state := Some (decoder_of (read_stats_json "too long reads")); device := HEISHAMON;
     on_receive := None; device_class := None; native_unit_of_measurement := None;
     state_class := Some TOTAL_INCREASING; entity_category := Some DIAGNOSTIC |};
  {| heishamon_topic_id := Some "STAT1_timeout_reads";
     key := "panasonic_heat_pump/stats"; name := "HeishaMon timeout reads";
     state := Some (decoder_of (read_stats_json "timeout reads")); device := HEISHAMON;
     on_receive := None; device_class := None; native_unit_of_measurement := None;
     state_class := Some TOTAL_INCREASING; entity_category := Some DIAGNOSTIC |};
  {| heishamon_topic_id := Some "STAT1_voltage"; key := "panasonic_heat_pump/stats";
     name := "HeishaMon voltage";
     state := Some (decoder_of (read_stats_json "voltage")); device := HEISHAMON;
     on_receive := None; device_class := Some VOLTAGE;
     native_unit_of_measurement := None; state_class := None;
     entity_category := Some DIAGNOSTIC |};
  {| heishamon_topic_id := Some "STAT1_freememory"; key := "panasonic_heat_pump/stats";
     name := "HeishaMon free memory";
     state := Some (decoder_of (read_stats_json "free memory")); device := HEISHAMON;
     on_receive := None; device_class := None; native_unit_of_measurement := Some "%";
     state_class := None; entity_category := Some DIAGNOSTIC |};
  {| heishamon_topic_id := Some "STAT1_freeheap"; key := "panasonic_heat_pump/stats";
     name := "HeishaMon free heap";
     state := Some (decoder_of (read_stats_json "free heap")); device := HEISHAMON;
     on_receive := None; device_class := None; native_unit_of_measurement := None;
     state_class := Some MEASUREMENT; entity_category := Some DIAGNOSTIC |};
  {| heishamon_topic_id := Some "STAT1-mqttreconnects";
     key := "panasonic_heat_pump/stats"; name := "HeishaMon mqtt reconnects";
     state := Some (decoder_of (read_stats_json "mqtt reconnects"));
     device := HEISHAMON; on_receive := None; device_class := None;
     native_unit_of_measurement := None; state_class := Some TOTAL_INCREASING;
     entity_category := Some DIAGNOSTIC |}
].

End SensorTable.

End Definitions.

(** ** The vocabulary of the properties *)

(** A decoder that returns for every payload. *)
Definition never_raises (f : decoder) : Prop :=
  ∀ value, ∃ v, result (f value) = Ok v.


(** The codes of the operating modes the module supports. *)
Definition supported_modes : list string := ["0"; "2"; "3"; "4"; "6"].

(** The raw codes of the quiet mode. *)
Definition quiet_mode_codes : list string := ["0"; "1"; "2"; "3"; "4"].

(** The state a switch decodes from a payload. *)
Definition switch_decode (d : Switch.HeishaMonSwitchEntityDescription) (payload : string)
  : option (exc pyval) :=
  f ← Switch.state d; Some (result (f payload)).

#[global] Instance DeviceType_eq_dec : EqDecision DeviceType.
Proof. solve_decision. Defined.

(** The sensors read from the heat pump, and those of the bridge itself. *)
Definition sensors_of (device : DeviceType)
    (table : list Sensor.HeishaMonSensorEntityDescription) :=
  filter (fun d => Sensor.device d = device) table.

(** The entry of a table with a given topic id. *)
Definition sensor_of_topic (models : gmap string string) (topic : string) :=
  List.find (fun d => bool_decide (Sensor.heishamon_topic_id d = Some topic)) (SENSORS models).

Definition switch_of_topic (topic : string) :=
  List.find (fun d => bool_decide (Switch.heishamon_topic_id d = Some topic)) MQTT_SWITCHES.

(** The state a sensor decodes from a payload; a sensor without a decoder
    shows the payload as it is. *)
Definition sensor_decode (d : Sensor.HeishaMonSensorEntityDescription) (payload : string)
  : exc pyval :=
  match Sensor.state d with
  | Some f => result (f payload)
  | None => Ok (PStr payload)
  end.

(** The characters of a text all satisfy a test. *)
Fixpoint all_chars (p : ascii -> bool) (s : string) : bool :=
  match s with
  | String c r => p c && all_chars p r
  | EmptyString => true
  end.

(** The value of a run of decimal digits read after [acc]. *)
Fixpoint decimal (acc : Z) (d : Decimal.uint) : Z :=
  match d with
  | Decimal.Nil => acc
  | Decimal.D0 l => decimal (acc * 10 + 0) l
  | Decimal.D1 l => decimal (acc * 10 + 1) l
  | Decimal.D2 l => decimal (acc * 10 + 2) l
  | Decimal.D3 l => decimal (acc * 10 + 3) l
  | Decimal.D4 l => decimal (acc * 10 + 4) l
  | Decimal.D5 l => decimal (acc * 10 + 5) l
  | Decimal.D6 l => decimal (acc * 10 + 6) l
  | Decimal.D7 l => decimal (acc * 10 + 7) l
  | Decimal.D8 l => decimal (acc * 10 + 8) l
  | Decimal.D9 l => decimal (acc * 10 + 9) l
  end.

(** [OPERATING_MODE_TO_STRING.values()]. *)
Definition mode_names : list string := OPERATING_MODE_TO_STRING.*2.

(** The entry of the selects with a given topic id. *)
Definition select_of_topic (topic : string) :=
  List.find (fun d => bool_decide (Select.heishamon_topic_id d = Some topic)) SELECTS.

(** [str(payload)] for the payloads an encoder returns. *)
Definition payload_text (payload : pyval) : option string :=
  match payload with
  | PInt n => Some (str_of_int n)
  | PStr s => Some s
  | _ => None
  end.

(** The payloads that decode to an option of the quiet-mode select. *)
Definition quiet_mode_payloads : list string :=
  ["0"; "1"; "2"; "3"; "4"; "Off"; "Scheduled"].

(** The field of the statistics document that each sensor of the bridge
    reads, by topic id. *)
Definition stats_fields : list (string * string) := [
  ("STAT1_rssi", "wifi");
  ("STAT1_uptime", "uptime");
  ("STAT1_total_reads", "total reads");
  ("STAT1_good_reads", "good reads");
  ("STAT1_badcrc_reads", "bad crc reads");
  ("STAT1_badheader_reads", "bad header reads");
  ("STAT1_tooshort_reads", "too short reads");
  ("STAT1_toolong_reads", "too long reads");
  ("STAT1_timeout_reads", "timeout reads");
  ("STAT1_voltage", "voltage");
  ("STAT1_freememory", "free memory");
  ("STAT1_freeheap", "free heap");
  ("STAT1-mqttreconnects", "mqtt reconnects")
].

(** The topic ids, the keys and the command topics of the five tables. *)
Definition registry_topic_ids (models : gmap string string) : list (option string) :=
  (Number.heishamon_topic_id <$> NUMBERS) ++
  (Select.heishamon_topic_id <$> SELECTS) ++
  (Switch.heishamon_topic_id <$> MQTT_SWITCHES) ++
  (BinarySensor.heishamon_topic_id <$> BINARY_SENSORS) ++
  (Sensor.heishamon_topic_id <$> SENSORS models).

Definition writable_keys : list string :=
  (Number.key <$> NUMBERS) ++ (Select.key <$> SELECTS) ++ (Switch.key <$> MQTT_SWITCHES).

Definition command_topics : list string :=
  (Number.command_topic <$> NUMBERS) ++
  (Select.command_topic <$> SELECTS) ++
  (Switch.command_topic <$> MQTT_SWITCHES).

(** ** Properties *)

(** *** Comparing strings *)

Lemma eqb_false (a b : string) : a ≠ b -> String.eqb a b = false.
Proof. apply String.eqb_neq. Qed.

(** Membership in a list of literals. *)
Ltac in_list := repeat first [apply list_elem_of_here | apply list_elem_of_further].

(** One goal for each entry of a table. *)
Ltac each_entry := repeat first [apply Forall_nil_2 | apply Forall_cons_2].

Lemma value_never_raises `{ToPy A} (f : string -> A) : never_raises (decoder_of f).
Proof. intros value. exists (to_py (f value)). reflexivity. Qed.

Lemma logged_never_raises `{ToPy A} (f : string -> A * list log_record) :
  never_raises (decoder_of f).
Proof. intros value. exists (to_py (f value).1). reflexivity. Qed.

(** *** The JSON reader always has fuel enough *)

Section JsonFuel.
Import Json.

Lemma eat_length (c : ascii) (s r : string) :
  eat c s = Some r -> String.length s = S (String.length r).
Proof.
  destruct s as [| a s]; [discriminate |]. cbn [eat].
  destruct (Ascii.eqb a c); [| discriminate]. intros [= <-]. reflexivity.
Qed.

Lemma skip_ws_length (s : string) : (String.length (skip_ws s) <= String.length s)%nat.
Proof.
  induction s as [| c s IH]; cbn [skip_ws]; [lia |].
  destruct (is_ws c); cbn [String.length]; lia.
Qed.

Lemma hex4_length (s r : string) (c : N) :
  hex4 s = Some (c, r) -> (String.length r + 4 = String.length s)%nat.
Proof.
  unfold hex4.
  destruct s as [| a [| b [| x [| y s]]]]; try discriminate.
  destruct (hex_val a), (hex_val b), (hex_val x), (hex_val y); try discriminate.
  intros [= _ <-]. cbn [String.length]. lia.
Qed.

Lemma unicode_escape_length (s r : string) (c : N) :
  unicode_escape s = Ok (c, r) -> (String.length r < String.length s)%nat.
Proof.
  unfold unicode_escape.
  destruct (hex4 s) as [[c1 r1] |] eqn:H1; [| discriminate].
  apply hex4_length in H1.
  destruct (is_high_surrogate c1); [| intros [= _ <-]; lia].
  destruct (eat "\" r1) as [r2 |] eqn:E1; cbn [mbind option_bind];
    [| intros [= _ <-]; lia].
  destruct (eat "u" r2) as [r3 |] eqn:E2; [| intros [= _ <-]; lia].
  apply eat_length in E1, E2.
  destruct (hex4 r3) as [[c2 r4] |] eqn:H2; [| discriminate].
  apply hex4_length in H2.
  destruct (is_low_surrogate c2); intros [= _ <-]; lia.
Qed.

Lemma scanstring_length (fuel : nat) (s k r : string) :
  scanstring fuel s = Ok (k, r) -> (String.length r < String.length s)%nat.
Proof.
  revert s k r. induction fuel as [| fuel IH]; intros s k r; [discriminate |].
  cbn [scanstring]. destruct s as [| c s]; [discriminate |].
  cbn [String.length].
  destruct (Ascii.eqb c "034"); [intros [= _ <-]; lia |].
  destruct (Ascii.eqb c "\").
  - destruct s as [| e s1]; [discriminate |].
    destruct (Ascii.eqb e "u").
    + destruct (unicode_escape s1) as [[cp r2] | err] eqn:Hu; [| discriminate].
      apply unicode_escape_length in Hu. cbn [mbind exc_bind].
      destruct (scanstring fuel r2) as [[tl r3] | err] eqn:Hs; [| discriminate].
      apply IH in Hs. intros [= _ <-]. cbn [String.length]. lia.
    + match goal with
      | |- context [of_option JSONDecodeError ?o] => destruct o; [| discriminate]
      end.
      cbn [of_option mbind exc_bind].
      destruct (scanstring fuel s1) as [[tl r3] | err] eqn:Hs; [| discriminate].
      apply IH in Hs. intros [= _ <-]. cbn [String.length]. lia.
  - destruct (nat_of_ascii c <=? 31)%nat; [discriminate |].
    destruct (scanstring fuel s) as [[tl r1] | err] eqn:Hs; [| discriminate].
    apply IH in Hs. cbn [mbind exc_bind]. intros [= _ <-]. lia.
Qed.

Lemma take_digits_length (s d r : string) :
  take_digits s = (d, r) -> String.length s = (String.length d + String.length r)%nat.
Proof.
  revert d r. induction s as [| c s IH]; intros d r; cbn [take_digits].
  - intros [= <- <-]. reflexivity.
  - destruct (is_digit c); [| intros [= <- <-]; reflexivity].
    destruct (take_digits s) as [d' r'] eqn:Ht. intros [= <- <-].
    cbn [String.length]. rewrite (IH d' r' eq_refl). lia.
Qed.

Lemma minus_sign_length (s sign r : string) :
  minus_sign s = (sign, r) -> (String.length r <= String.length s)%nat.
Proof.
  unfold minus_sign. destruct (eat "-" s) as [r0 |] eqn:E; intros [= _ <-]; [| lia].
  apply eat_length in E. lia.
Qed.

Lemma int_part_length (s digits r : string) :
  int_part s = Some (digits, r) -> (String.length r < String.length s)%nat.
Proof.
  unfold int_part. destruct (eat "0" s) as [r0 |] eqn:E.
  - intros [= _ <-]. apply eat_length in E. lia.
  - destruct (take_digits s) as [[| c ds] r0] eqn:Ht; [discriminate |].
    intros [= _ <-]. apply take_digits_length in Ht. cbn [String.length] in Ht. lia.
Qed.

Lemma frac_part_length (s frac r : string) :
  frac_part s = (frac, r) -> (String.length r <= String.length s)%nat.
Proof.
  unfold frac_part. destruct (eat "." s) as [r0 |] eqn:E; [| intros [= _ <-]; lia].
  apply eat_length in E.
  destruct (take_digits r0) as [[| c ds] r1] eqn:Ht; intros [= _ <-]; [lia |].
  apply take_digits_length in Ht. lia.
Qed.

Lemma exponent_sign_length (s sign r : string) :
  exponent_sign s = (sign, r) -> (String.length r <= String.length s)%nat.
Proof.
  unfold exponent_sign.
  destruct (eat "-" s) as [[| c r0] |] eqn:Em;
    destruct (eat "+" s) as [[| c' r1] |] eqn:Ep;
    intros [= _ <-];
    try apply eat_length in Em; try apply eat_length in Ep;
    cbn [String.length] in *; lia.
Qed.

Lemma exponent_part_length (s exponent r : string) :
  exponent_part s = (exponent, r) -> (String.length r <= String.length s)%nat.
Proof.
  unfold exponent_part. destruct s as [| e s]; [intros [= _ <-]; lia |].
  destruct (Ascii.eqb e "e" || Ascii.eqb e "E"); [| intros [= _ <-]; lia].
  destruct (exponent_sign s) as [esign r1] eqn:Es. apply exponent_sign_length in Es.
  destruct (take_digits r1) as [[| c ds] r2] eqn:Ht; intros [= _ <-]; [lia |].
  apply take_digits_length in Ht. cbn [String.length] in *. lia.
Qed.

Lemma match_number_length (s text r : string) (is_float : bool) :
  match_number s = Some (is_float, text, r) -> (String.length r < String.length s)%nat.
Proof.
  unfold match_number.
  destruct (minus_sign s) as [sign s1] eqn:E1. apply minus_sign_length in E1.
  destruct (int_part s1) as [[digits s2] |] eqn:E2; [| discriminate].
  apply int_part_length in E2. cbn [mbind option_bind].
  destruct (frac_part s2) as [frac s3] eqn:E3. apply frac_part_length in E3.
  destruct (exponent_part s3) as [exponent s4] eqn:E4. apply exponent_part_length in E4.
  intros [= _ _ <-]. lia.
Qed.

Lemma number_length (s r : string) (v : pyval) :
  number s = Ok (v, r) -> (String.length r < String.length s)%nat.
Proof.
  unfold number.
  destruct (match_number s) as [[[[] text] r0] |] eqn:E; [| | discriminate];
    apply match_number_length in E;
    match goal with
    | |- context [of_option ValueError ?o] => destruct o; [| discriminate]
    end;
    intros [= _ <-]; exact E.
Qed.

Lemma number_has_fuel (s : string) : number s ≠ Raise RecursionError.
Proof.
  unfold number.
  destruct (match_number s) as [[[[] text] r0] |]; [| | discriminate];
    match goal with
    | |- context [of_option ValueError ?o] => destruct o; discriminate
    end.
Qed.

Lemma strip_prefix_length (p s r : string) :
  strip_prefix p s = Some r -> String.length s = (String.length p + String.length r)%nat.
Proof.
  revert s. induction p as [| a p IH]; intros s; cbn [strip_prefix].
  - intros [= <-]. reflexivity.
  - destruct s as [| b s]; [discriminate |].
    destruct (Ascii.eqb a b); [| discriminate].
    intros H. apply IH in H. cbn [String.length]. lia.
Qed.

Lemma constant_length (word s r : string) (c v : pyval) :
  word ≠ EmptyString ->
  constant word c s = Ok (v, r) -> (String.length r < String.length s)%nat.
Proof.
  intros Hword. unfold constant.
  destruct (strip_prefix word s) as [r0 |] eqn:E; [| apply number_length].
  intros [= _ <-]. apply strip_prefix_length in E.
  destruct word; [contradiction | cbn [String.length] in E; lia].
Qed.

Lemma constant_has_fuel (word s : string) (c : pyval) :
  constant word c s ≠ Raise RecursionError.
Proof.
  unfold constant. destruct (strip_prefix word s); [discriminate | apply number_has_fuel].
Qed.

Lemma unicode_escape_error (s : string) (e : exn) :
  unicode_escape s = Raise e -> e = JSONDecodeError.
Proof.
  unfold unicode_escape.
  destruct (hex4 s) as [[c r] |]; [| congruence].
  destruct (is_high_surrogate c); [| discriminate].
  destruct (eat "\" r ≫= eat "u") as [r1 |]; [| discriminate].
  destruct (hex4 r1) as [[c2 r2] |]; [| congruence].
  destruct (is_low_surrogate c2); discriminate.
Qed.

Lemma scanstring_error (fuel : nat) (s : string) (e : exn) :
  scanstring fuel s = Raise e -> e = JSONDecodeError.
Proof.
  revert s. induction fuel as [| fuel IH]; intros s; [cbn; congruence |].
  cbn [scanstring]. destruct s as [| c s]; [congruence |].
  destruct (Ascii.eqb c "034"); [discriminate |].
  destruct (Ascii.eqb c "\").
  - destruct s as [| x s1]; [congruence |].
    destruct (Ascii.eqb x "u").
    + destruct (unicode_escape s1) as [[cp r2] | err] eqn:Hu; cbn [mbind exc_bind].
      * specialize (IH r2). destruct (scanstring fuel r2) as [[tl r3] | err];
          [discriminate | intros [= <-]; auto].
      * intros [= <-]. exact (unicode_escape_error _ _ Hu).
    + match goal with
      | |- context [of_option JSONDecodeError ?o] => destruct o
      end; cbn [of_option mbind exc_bind]; [| congruence].
      specialize (IH s1). destruct (scanstring fuel s1) as [[tl r3] | err];
        [discriminate | intros [= <-]; auto].
  - destruct (nat_of_ascii c <=? 31)%nat; [congruence |].
    specialize (IH s). destruct (scanstring fuel s) as [[tl r1] | err];
      cbn [mbind exc_bind]; [discriminate | intros [= <-]; auto].
Qed.

Lemma scanstring_has_fuel (fuel : nat) (s : string) :
  scanstring fuel s ≠ Raise RecursionError.
Proof. intros H. apply scanstring_error in H. discriminate. Qed.

(** With a budget of twice the length of the text and one more, the reader
    of a value never runs out, and it consumes at least one character. *)
Lemma scan_once_fuel (fuel : nat) :
  (∀ s, (2 * String.length s + 1 <= fuel)%nat ->
     scan_once fuel s ≠ Raise RecursionError ∧
     ∀ v r, scan_once fuel s = Ok (v, r) -> (String.length r < String.length s)%nat) ∧
  (∀ d s, (2 * String.length s + 2 <= fuel)%nat ->
     parse_object fuel d s ≠ Raise RecursionError ∧
     ∀ v r, parse_object fuel d s = Ok (v, r) -> (String.length r < String.length s)%nat) ∧
  (∀ l s, (2 * String.length s + 2 <= fuel)%nat ->
     parse_array fuel l s ≠ Raise RecursionError ∧
     ∀ v r, parse_array fuel l s = Ok (v, r) -> (String.length r < String.length s)%nat).
Proof.
  induction fuel as [| fuel (IHscan & IHobj & IHarr)].
  { repeat split; intros; lia. }
  split; [| split].
  - intros s Hfuel. cbn [scan_once].
    destruct s as [| c s]; [split; [discriminate | discriminate] |].
    cbn [String.length] in *.
    pose proof (skip_ws_length s) as Hws.
    destruct (Ascii.eqb c "034").
    { destruct (scanstring (String.length s) s) as [[k r'] | e] eqn:Hs;
        cbn [mbind exc_bind].
      - split; [discriminate |]. intros v r [= _ <-].
        apply scanstring_length in Hs. lia.
      - split; [| discriminate]. intros [= ->].
        exact (scanstring_has_fuel _ _ Hs). }
    destruct (Ascii.eqb c "{").
    { destruct (eat "}" (skip_ws s)) as [r' |] eqn:He.
      - apply eat_length in He. split; [discriminate |]. intros v r [= _ <-]. lia.
      - destruct (IHobj [] (skip_ws s)) as [Hrec Hlen]; [lia |].
        split; [exact Hrec |]. intros v r Hr. apply Hlen in Hr. lia. }
    destruct (Ascii.eqb c "[").
    { destruct (eat "]" (skip_ws s)) as [r' |] eqn:He.
      - apply eat_length in He. split; [discriminate |]. intros v r [= _ <-]. lia.
      - destruct (IHarr [] (skip_ws s)) as [Hrec Hlen]; [lia |].
        split; [exact Hrec |]. intros v r Hr. apply Hlen in Hr. lia. }
    repeat match goal with
    | |- context [if ?b then constant ?w ?k ?t else _] =>
        destruct b;
        [split; [apply constant_has_fuel |];
         intros v r Hr; apply constant_length in Hr; [exact Hr | discriminate] |]
    end.
    split; [apply number_has_fuel |]. intros v r Hr. exact (number_length _ _ _ Hr).
  - intros d s Hfuel. cbn [parse_object].
    destruct (eat "034" s) as [r0 |] eqn:E0; cbn [of_option mbind exc_bind];
      [| split; discriminate].
    apply eat_length in E0.
    destruct (scanstring (String.length r0) r0) as [[key r1] | e] eqn:Hs;
      cbn [of_option mbind exc_bind].
    2:{ split; [| discriminate]. intros [= ->]. exact (scanstring_has_fuel _ _ Hs). }
    apply scanstring_length in Hs.
    pose proof (skip_ws_length r1) as Hws1.
    destruct (eat ":" (skip_ws r1)) as [r2 |] eqn:E2; cbn [of_option mbind exc_bind];
      [| split; discriminate].
    apply eat_length in E2.
    pose proof (skip_ws_length r2) as Hws2.
    destruct (IHscan (skip_ws r2)) as [Hrec Hlen]; [lia |].
    destruct (scan_once fuel (skip_ws r2)) as [[val r3] | e] eqn:Hv;
      cbn [of_option mbind exc_bind].
    2:{ split; [| discriminate]. intros [= ->]. contradiction. }
    specialize (Hlen val r3 eq_refl).
    pose proof (skip_ws_length r3) as Hws3.
    destruct (eat "}" (skip_ws r3)) as [r4 |] eqn:E4.
    { apply eat_length in E4. split; [discriminate |]. intros v r [= _ <-]. lia. }
    destruct (eat "," (skip_ws r3)) as [r4 |] eqn:E5; [| split; discriminate].
    apply eat_length in E5.
    pose proof (skip_ws_length r4) as Hws4.
    destruct (IHobj (dict_set key val d) (skip_ws r4)) as [Hrec' Hlen']; [lia |].
    split; [exact Hrec' |]. intros v r Hr. apply Hlen' in Hr. lia.
  - intros l s Hfuel. cbn [parse_array].
    destruct (IHscan s) as [Hrec Hlen]; [lia |].
    destruct (scan_once fuel s) as [[val r1] | e] eqn:Hv; cbn [mbind exc_bind].
    2:{ split; [| discriminate]. intros [= ->]. contradiction. }
    specialize (Hlen val r1 eq_refl).
    pose proof (skip_ws_length r1) as Hws1.
    destruct (eat "]" (skip_ws r1)) as [r2 |] eqn:E2.
    { apply eat_length in E2. split; [discriminate |]. intros v r [= _ <-]. lia. }
    destruct (eat "," (skip_ws r1)) as [r2 |] eqn:E3; [| split; discriminate].
    apply eat_length in E3.
    pose proof (skip_ws_length r2) as Hws2.
    destruct (IHarr (l ++ [val])%list (skip_ws r2)) as [Hrec' Hlen']; [lia |].
    split; [exact Hrec' |]. intros v r Hr. apply Hlen' in Hr. lia.
Qed.

(** A string literal is read the same with any budget that covers it. *)
Lemma scanstring_budget (n m : nat) (s : string) :
  (String.length s <= n)%nat -> (String.length s <= m)%nat ->
  scanstring n s = scanstring m s.
Proof.
  revert m s. induction n as [| n IH]; intros m s Hn Hm.
  - destruct s; [| cbn [String.length] in Hn; lia]. destruct m; reflexivity.
  - destruct m as [| m]; [destruct s; [reflexivity | cbn [String.length] in Hm; lia] |].
    cbn [scanstring]. destruct s as [| c s]; [reflexivity |].
    cbn [String.length] in *.
    destruct (Ascii.eqb c "034"); [reflexivity |].
    destruct (Ascii.eqb c "\").
    + destruct s as [| e s1]; [reflexivity |]. cbn [String.length] in *.
      destruct (Ascii.eqb e "u").
      * destruct (unicode_escape s1) as [[cp r2] | err] eqn:Hu; [| reflexivity].
        apply unicode_escape_length in Hu. cbn [mbind exc_bind].
        rewrite (IH m r2) by lia. reflexivity.
      * match goal with
        | |- context [of_option JSONDecodeError ?o] => destruct o; [| reflexivity]
        end.
        cbn [of_option mbind exc_bind]. rewrite (IH m s1) by lia. reflexivity.
    + destruct (nat_of_ascii c <=? 31)%nat; [reflexivity |].
      rewrite (IH m s) by lia. reflexivity.
Qed.

(** A result reached within the budget is the result with any larger one. *)
Lemma scan_once_more_fuel (n : nat) :
  (∀ s m, (n <= m)%nat -> scan_once n s ≠ Raise RecursionError ->
     scan_once m s = scan_once n s) ∧
  (∀ d s m, (n <= m)%nat -> parse_object n d s ≠ Raise RecursionError ->
     parse_object m d s = parse_object n d s) ∧
  (∀ l s m, (n <= m)%nat -> parse_array n l s ≠ Raise RecursionError ->
     parse_array m l s = parse_array n l s).
Proof.
  induction n as [| n (IHscan & IHobj & IHarr)].
  { repeat split; intros; cbn in *; congruence. }
  split; [| split].
  - intros s [| m] Hm; [lia |]. cbn [scan_once].
    destruct s as [| c s]; [reflexivity |].
    destruct (Ascii.eqb c "034"); [reflexivity |].
    destruct (Ascii.eqb c "{").
    { destruct (eat "}" (skip_ws s)); [reflexivity |]. apply IHobj. lia. }
    destruct (Ascii.eqb c "[").
    { destruct (eat "]" (skip_ws s)); [reflexivity |]. apply IHarr. lia. }
    reflexivity.
  - intros d s [| m] Hm; [lia |]. cbn [parse_object].
    destruct (eat "034" s) as [r0 |]; cbn [of_option mbind exc_bind]; [| reflexivity].
    destruct (scanstring (String.length r0) r0) as [[key r1] | e];
      cbn [of_option mbind exc_bind]; [| reflexivity].
    destruct (eat ":" (skip_ws r1)) as [r2 |]; cbn [of_option mbind exc_bind];
      [| reflexivity].
    intros Hrec.
    rewrite (IHscan (skip_ws r2) m) by
      (try lia; intros Hv; apply Hrec; rewrite Hv; reflexivity).
    destruct (scan_once n (skip_ws r2)) as [[val r3] | e];
      cbn [of_option mbind exc_bind] in *; [| reflexivity].
    destruct (eat "}" (skip_ws r3)); [reflexivity |].
    destruct (eat "," (skip_ws r3)); [| reflexivity].
    apply IHobj; [lia | exact Hrec].
  - intros l s [| m] Hm; [lia |]. cbn [parse_array].
    intros Hrec.
    rewrite (IHscan s m) by
      (try lia; intros Hv; apply Hrec; rewrite Hv; reflexivity).
    destruct (scan_once n s) as [[val r1] | e];
      cbn [of_option mbind exc_bind] in *; [| reflexivity].
    destruct (eat "]" (skip_ws r1)); [reflexivity |].
    destruct (eat "," (skip_ws r1)); [| reflexivity].
    apply IHarr; [lia | exact Hrec].
Qed.

(** [json.loads] never fails for want of fuel. *)
Lemma loads_has_fuel (s : string) : loads s ≠ Raise RecursionError.
Proof.
  unfold loads.
  destruct (proj1 (scan_once_fuel (2 * String.length s + 2)) (skip_ws s)) as [Hrec _].
  { pose proof (skip_ws_length s). lia. }
  destruct (scan_once (2 * String.length s + 2) (skip_ws s)) as [[v r] | e];
    cbn [mbind exc_bind].
  - destruct (skip_ws r); discriminate.
  - intros [= ->]. contradiction.
Qed.


(** [json.loads] is the reader run on any budget of twice the length of the
    text and two more: the budget chosen in [loads] decides nothing. *)
Lemma loads_any_fuel (s : string) (fuel : nat) :
  (2 * String.length s + 2 <= fuel)%nat ->
  loads s =
    ('(v, r) ← scan_once fuel (skip_ws s);
     match skip_ws r with
     | EmptyString => Ok v
     | _ => Raise JSONDecodeError
     end).
Proof.
  intros Hfuel. unfold loads.
  rewrite (proj1 (scan_once_more_fuel (2 * String.length s + 2)) (skip_ws s) fuel Hfuel);
    [reflexivity |].
  apply (proj1 (scan_once_fuel (2 * String.length s + 2))).
  pose proof (skip_ws_length s). lia.
Qed.

End JsonFuel.

(** *** Bit to boolean *)

(** C5: [bit_to_bool "1"] is true, [bit_to_bool "0"] is false, and every
    other payload gives None. *)
Theorem bit_to_bool_spec :
  bit_to_bool "1" = Some true ∧
  bit_to_bool "0" = Some false ∧
  ∀ p : string, p ≠ "0" -> p ≠ "1" -> bit_to_bool p = None.
Proof.
  split; [reflexivity |]. split; [reflexivity |].
  intros p H0 H1. unfold bit_to_bool.
  rewrite (eqb_false p "1" H1), (eqb_false p "0" H0). reflexivity.
Qed.

Lemma bit_to_bool_spec_witness :
  "on" ≠ "0" ∧ "on" ≠ "1" ∧ bit_to_bool "on" = None.
Proof.
  split; [discriminate |]. split; [discriminate |].
  apply (proj2 (proj2 bit_to_bool_spec) "on"); discriminate.
Defined.

(** *** Three-way valve *)

(** C6, as stated, fails on the labels: the decoder answers ["Room"] and
    ["Tank"], capitalised, not ["room"] and ["tank"]. *)
Lemma read_threeway_valve_labels_cex :
  (read_threeway_valve "0").1 ≠ Some "room" ∧
  (read_threeway_valve "1").1 ≠ Some "tank".
Proof. split; discriminate. Qed.

(** C6, amended: [read_threeway_valve] maps ["0"] to ["Room"] and ["1"] to
    ["Tank"]; for every other payload it returns None, does not raise, and
    writes one INFO record that quotes the payload. *)
Theorem read_threeway_valve_spec :
  read_threeway_valve "0" = (Some "Room", []) ∧
  read_threeway_valve "1" = (Some "Tank", []) ∧
  ∀ value : string, value ≠ "0" -> value ≠ "1" ->
    read_threeway_valve value =
      (None, [(INFO, "Reading unhandled value for ThreeWay Valve state: '" +:+ value +:+ "'")]) ∧
    result (decoder_of read_threeway_valve value) = Ok PNone.
Proof.
  split; [reflexivity |]. split; [reflexivity |].
  intros value H0 H1.
  unfold decoder_of, outcome_of, returns_logged, read_threeway_valve.
  rewrite (eqb_false value "0" H0), (eqb_false value "1" H1).
  split; reflexivity.
Qed.

Lemma read_threeway_valve_spec_witness :
  read_threeway_valve "2" =
    (None, [(INFO, "Reading unhandled value for ThreeWay Valve state: '2'")]) ∧
  result (decoder_of read_threeway_valve "2") = Ok PNone.
Proof.
  apply (proj2 (proj2 read_threeway_valve_spec) "2"); discriminate.
Defined.

(** *** Operating mode *)

Lemma supported_modes_are_the_keys : OPERATING_MODE_TO_STRING.*1 = supported_modes.
Proof. reflexivity. Qed.

Lemma read_operating_mode_state_unknown (code : string) :
  code ∉ supported_modes ->
  read_operating_mode_state code = "Unknown operating mode value: " +:+ code.
Proof.
  intros Hnot. unfold read_operating_mode_state, OPERATING_MODE_TO_STRING.
  cbn [dict_get].
  repeat match goal with
  | |- context [String.eqb ?k code] =>
      rewrite (eqb_false k code);
      [| intros <-; apply Hnot; unfold supported_modes; in_list]
  end.
  reflexivity.
Qed.

Lemma operating_mode_to_state_unknown (code : string) :
  operating_mode_to_state ("Unknown operating mode value: " +:+ code) = None.
Proof. reflexivity. Qed.

(** C2: on the supported codes 0, 2, 3, 4 and 6 encoding the decoded mode
    gives the code back; for any other code the decoder returns the text
    "Unknown operating mode value: " followed by the code, and the encoder
    maps that text to None. *)
Theorem operating_mode_round_trip :
  (∀ code : string, code ∈ supported_modes ->
     operating_mode_to_state (read_operating_mode_state code) = Some code) ∧
  (∀ code : string, code ∉ supported_modes ->
     read_operating_mode_state code = "Unknown operating mode value: " +:+ code ∧
     operating_mode_to_state (read_operating_mode_state code) = None).
Proof.
  split.
  - intros code Hin. unfold supported_modes in Hin.
    repeat (apply elem_of_cons in Hin as [-> | Hin]; [reflexivity |]).
    inversion Hin.
  - intros code Hnot.
    rewrite (read_operating_mode_state_unknown code Hnot).
    split; [reflexivity | apply operating_mode_to_state_unknown].
Qed.

Lemma operating_mode_round_trip_witness :
  operating_mode_to_state (read_operating_mode_state "3") = Some "3" ∧
  read_operating_mode_state "5" = "Unknown operating mode value: 5" ∧
  operating_mode_to_state (read_operating_mode_state "5") = None.
Proof.
  split.
  - apply (proj1 operating_mode_round_trip "3"). unfold supported_modes. in_list.
  - apply (proj2 operating_mode_round_trip "5"). unfold supported_modes.
    intros Hin. repeat (apply elem_of_cons in Hin as [Hin | Hin]; [discriminate Hin |]).
    inversion Hin.
Defined.

(** *** Quiet mode *)

(** C3, as stated, fails: the encoder returns an integer, and an integer is
    not equal to the code, which is a string; the two labels are
    ["Scheduled"] and ["Off"], capitalised. *)
Lemma quiet_mode_round_trip_cex :
  write_quiet_mode (read_quiet_mode "0") = Ok 0%Z ∧
  to_py <$> write_quiet_mode (read_quiet_mode "0") ≠ Ok (PStr "0") ∧
  read_quiet_mode "4" ≠ "scheduled" ∧
  read_quiet_mode "0" ≠ "off".
Proof. split; [reflexivity |]. repeat split; discriminate. Qed.

(** C3, amended: [read_quiet_mode] maps ["4"] to ["Scheduled"], ["0"] to
    ["Off"] and every other payload to itself; [write_quiet_mode] maps
    ["Off"] to the integer 0, ["Scheduled"] to 4 and anything else to
    [int] of it; and for every code in 0..4 the encoder applied to the
    decoded code returns the integer whose decimal text is the code. *)
Theorem quiet_mode_round_trip :
  (read_quiet_mode "4" = "Scheduled" ∧
   read_quiet_mode "0" = "Off" ∧
   ∀ value : string, value ≠ "4" -> value ≠ "0" -> read_quiet_mode value = value) ∧
  (write_quiet_mode "Off" = Ok 0%Z ∧
   write_quiet_mode "Scheduled" = Ok 4%Z ∧
   ∀ selected : string, selected ≠ "Off" -> selected ≠ "Scheduled" ->
     write_quiet_mode selected = builtin_int (PStr selected)) ∧
  (∀ code : string, code ∈ quiet_mode_codes ->
     ∃ n : Z, write_quiet_mode (read_quiet_mode code) = Ok n ∧ str_of_int n = code).
Proof.
  split; [| split].
  - split; [reflexivity |]. split; [reflexivity |].
    intros value H4 H0. unfold read_quiet_mode.
    rewrite (eqb_false value "4" H4), (eqb_false value "0" H0). reflexivity.
  - split; [reflexivity |]. split; [reflexivity |].
    intros selected Hoff Hsched. unfold write_quiet_mode.
    rewrite (eqb_false selected "Off" Hoff), (eqb_false selected "Scheduled" Hsched).
    reflexivity.
  - intros code Hin. unfold quiet_mode_codes in Hin.
    repeat (apply elem_of_cons in Hin as [-> | Hin];
            [eexists; split; reflexivity |]).
    inversion Hin.
Qed.

Lemma quiet_mode_round_trip_witness :
  read_quiet_mode "2" = "2" ∧
  write_quiet_mode "3" = builtin_int (PStr "3") ∧
  ∃ n : Z, write_quiet_mode (read_quiet_mode "4") = Ok n ∧ str_of_int n = "4".
Proof.
  destruct quiet_mode_round_trip as ((_ & _ & Hread) & (_ & _ & Hwrite) & Hround).
  split; [apply Hread; discriminate |].
  split; [apply Hwrite; discriminate |].
  apply Hround. unfold quiet_mode_codes. in_list.
Defined.

(** *** Milliseconds to seconds *)

(** C7, as stated, fails at zero: a zero is not divided, it gives None. *)
Lemma ms_to_secs_zero_cex :
  ms_to_secs (Some (float_of_Z 0)) = None ∧
  ms_to_secs (Some (float_of_Z 0)) ≠ Some (float_div (float_of_Z 0) (float_of_Z 1000)).
Proof. split; [reflexivity | discriminate]. Qed.

(** C7, amended: [ms_to_secs] divides every float other than zero by 1000
    (so 1500.0 gives 1.5), and returns None for None and for a zero of
    either sign. *)
Theorem ms_to_secs_spec :
  ms_to_secs None = None ∧
  (∀ v : float, float_is_zero v = false ->
     ms_to_secs (Some v) = Some (float_div v (float_of_Z 1000))) ∧
  (∀ v : float, float_is_zero v = true -> ms_to_secs (Some v) = None) ∧
  ms_to_secs (float_of_str "1500") = float_of_str "1.5" ∧
  float_of_str "1.5" = Some (S754_finite false (3 * 2 ^ 51) (-52)).
Proof.
  split; [reflexivity |]. split; [| split; [| split; reflexivity]].
  - intros v Hv. unfold ms_to_secs. cbn [to_py option_to_py float_to_py truthy].
    rewrite Hv. reflexivity.
  - intros v Hv. unfold ms_to_secs. cbn [to_py option_to_py float_to_py truthy].
    rewrite Hv. reflexivity.
Qed.

Lemma ms_to_secs_spec_witness :
  ms_to_secs (Some (float_of_Z 5000)) = Some (float_div (float_of_Z 5000) (float_of_Z 1000)) ∧
  ms_to_secs (Some (float_zero true)) = None.
Proof.
  destruct ms_to_secs_spec as (_ & Hdiv & Hzero & _).
  split; [apply Hdiv | apply Hzero]; reflexivity.
Defined.

(** *** Switches *)

(** C10: every entry of [MQTT_SWITCHES] decodes with [bit_to_bool] and has
    the payloads ["1"] and ["0"], so its own "on" payload decodes to True
    and its own "off" payload to False. *)
Theorem switch_payloads_decode :
  Forall (fun d =>
    Switch.state d = Some (decoder_of bit_to_bool) ∧
    Switch.payload_on d = "1" ∧
    Switch.payload_off d = "0" ∧
    switch_decode d (Switch.payload_on d) = Some (Ok (PBool true)) ∧
    switch_decode d (Switch.payload_off d) = Some (Ok (PBool false)))
  MQTT_SWITCHES.
Proof. unfold MQTT_SWITCHES. each_entry; repeat split. Qed.

(** *** Statistics *)









(** *** The tables *)

(** Decides a closed proposition by evaluation. *)
Ltac by_evaluation :=
  match goal with
  | |- ?P => refine (bool_decide_unpack P _); vm_compute; exact I
  end.

(** C8, as stated, fails on the keys: whatever the model table, two entries
    of [SENSORS] have the same key. *)
Lemma sensor_keys_shared_cex :
  ¬ ∃ models : gmap string string, NoDup (Sensor.key <$> SENSORS models).
Proof.
  intros [models Hnodup].
  assert (Hdup : bool_decide (NoDup (Sensor.key <$> SENSORS models)) = false)
    by (vm_compute; reflexivity).
  apply bool_decide_eq_false in Hdup. exact (Hdup Hnodup).
Qed.

(** C8, amended: within each of the five tables the topic ids are pairwise
    distinct.  The keys are pairwise distinct within [NUMBERS], [SELECTS],
    [MQTT_SWITCHES] and [BINARY_SENSORS] and among the heat-pump entries of
    [SENSORS]; the thirteen entries of [SENSORS] that belong to the bridge
    all have the key [panasonic_heat_pump/stats], the topic of the one JSON
    document each of them reads a field of. *)
Theorem descriptor_identifiers (models : gmap string string) :
  (NoDup (Number.heishamon_topic_id <$> NUMBERS) ∧
   NoDup (Select.heishamon_topic_id <$> SELECTS) ∧
   NoDup (Switch.heishamon_topic_id <$> MQTT_SWITCHES) ∧
   NoDup (BinarySensor.heishamon_topic_id <$> BINARY_SENSORS) ∧
   NoDup (Sensor.heishamon_topic_id <$> SENSORS models)) ∧
  (NoDup (Number.key <$> NUMBERS) ∧
   NoDup (Select.key <$> SELECTS) ∧
   NoDup (Switch.key <$> MQTT_SWITCHES) ∧
   NoDup (BinarySensor.key <$> BINARY_SENSORS) ∧
   NoDup (Sensor.key <$> sensors_of HEATPUMP (SENSORS models))) ∧
  (length (sensors_of HEISHAMON (SENSORS models)) = 13%nat ∧
   Forall (fun d => Sensor.key d = "panasonic_heat_pump/stats")
     (sensors_of HEISHAMON (SENSORS models))).
Proof.
  split; [| split].
  - repeat split; by_evaluation.
  - repeat split; by_evaluation.
  - split; [reflexivity |]. by_evaluation.
Qed.

(** *** Which decoders raise *)

(** C1, as stated, fails: [read_power_mode_time], the decoder of TOP17,
    raises ValueError on a payload that is not a number, and
    [read_stats_json], the decoder of the statistics sensors, raises
    JSONDecodeError on a payload that is not JSON. *)
Lemma decoders_raise_cex :
  read_power_mode_time "abc" = Raise ValueError ∧
  read_stats_json "wifi" "not json" = Raise JSONDecodeError ∧
  ∃ d f, d ∈ SENSORS ∅ ∧
    Sensor.heishamon_topic_id d = Some "TOP17" ∧
    Sensor.state d = Some f ∧
    result (f "abc") = Raise ValueError.
Proof.
  split; [reflexivity |]. split; [reflexivity |].
  eexists _, _. split; [| split; [| split]].
  - apply list_elem_of_lookup_2 with 13%nat. reflexivity.
  - reflexivity.
  - reflexivity.
  - reflexivity.
Qed.

Lemma read_power_mode_time_int (value : string) :
  read_power_mode_time value =
    match int_of_str value with
    | Some n => Ok (n * 30)%Z
    | None => Raise ValueError
    end.
Proof.
  unfold read_power_mode_time, builtin_int.
  destruct (int_of_str value); reflexivity.
Qed.

Lemma read_stats_json_cases (field_name json_doc : string) :
  read_stats_json field_name json_doc =
    match Json.loads json_doc with
    | Raise e => Raise e
    | Ok (PDict d) =>
        match dict_get field_name d with
        | Some field_value =>
            if truthy field_value then Some <$> builtin_float field_value else Ok None
        | None => Ok None
        end
    | Ok _ => Raise AttributeError
    end.
Proof.
  unfold read_stats_json, method_get, mbind, exc_bind.
  destruct (Json.loads json_doc) as [[| | | | | |d] | e]; try reflexivity.
  destruct (dict_get field_name d); reflexivity.
Qed.

(** C1, amended: the decoders [bit_to_bool], [read_threeway_valve],
    [read_quiet_mode], [read_operating_mode_state] and [read_heatpump_model]
    return for every payload, and with them every entry of the switches,
    the binary sensors and the selects and every heat-pump sensor but
    TOP17.  [read_power_mode_time] (TOP17) and [int], the decoder of the
    number entity, raise ValueError exactly on the payloads [int] rejects.
    [read_stats_json] raises what [json.loads] raises on a payload that is
    not JSON, raises AttributeError on a document that is not an object, and
    on an object returns None for an absent or false field and [float] of
    the field otherwise, which raises when the field is no number. *)
Theorem decoders_raise_exactly (models : gmap string string) :
  (Forall (fun d => ∀ f, Switch.state d = Some f -> never_raises f) MQTT_SWITCHES ∧
   Forall (fun d => ∀ f, BinarySensor.state d = Some f -> never_raises f) BINARY_SENSORS ∧
   Forall (fun d => ∀ f, Select.state d = Some f -> never_raises f) SELECTS ∧
   Forall (fun d => ∀ f, Sensor.state d = Some f ->
             Sensor.device d = HEATPUMP ->
             Sensor.heishamon_topic_id d ≠ Some "TOP17" -> never_raises f)
     (SENSORS models)) ∧
  (Forall (fun d => ∀ f, Sensor.state d = Some f ->
             Sensor.heishamon_topic_id d = Some "TOP17" ->
             ∀ value, result (f value) = PInt <$> read_power_mode_time value)
     (SENSORS models) ∧
   Forall (fun d => ∀ f, Sensor.state d = Some f ->
             Sensor.device d = HEISHAMON ->
             ∃ field_name, ∀ json_doc,
               raises (result (f json_doc)) = raises (read_stats_json field_name json_doc))
     (SENSORS models)) ∧
  (∀ value : string,
     read_power_mode_time value =
       match int_of_str value with
       | Some n => Ok (n * 30)%Z
       | None => Raise ValueError
       end) ∧
  (Forall (fun d => ∀ value : string,
             (f ← Number.state d; Some (result (f value))) =
               Some (PInt <$> of_option ValueError (int_of_str value)))
     NUMBERS) ∧
  (∀ field_name json_doc : string,
     read_stats_json field_name json_doc =
       match Json.loads json_doc with
       | Raise e => Raise e
       | Ok (PDict d) =>
           match dict_get field_name d with
           | Some field_value =>
               if truthy field_value then Some <$> builtin_float field_value else Ok None
           | None => Ok None
           end
       | Ok _ => Raise AttributeError
       end).
Proof.
  split; [| split; [| split; [| split]]].
  - repeat split.
    + unfold MQTT_SWITCHES. each_entry;
        intros f [= <-]; apply value_never_raises.
    + unfold BINARY_SENSORS. each_entry;
        intros f [= <-]; apply value_never_raises.
    + unfold SELECTS. each_entry;
        intros f [= <-]; apply value_never_raises.
    + unfold SENSORS.
      each_entry;
        cbn [Sensor.state Sensor.device Sensor.heishamon_topic_id];
        intros f Hstate Hdevice Htopic;
        first [discriminate Hstate
              | discriminate Hdevice
              | contradiction Htopic; reflexivity
              | injection Hstate as <-;
                first [apply value_never_raises | apply logged_never_raises]].
  - split.
    + unfold SENSORS.
      each_entry; cbn [Sensor.state Sensor.heishamon_topic_id];
        intros f Hstate Htopic;
        first [discriminate Hstate
              | discriminate Htopic
              | injection Hstate as <-; intros value; reflexivity].
    + unfold SENSORS.
      each_entry; cbn [Sensor.state Sensor.device];
        intros f Hstate Hdevice;
        first [discriminate Hstate
              | discriminate Hdevice
              | injection Hstate as <-; eexists; intros json_doc;
                unfold decoder_of, outcome_of, returns_exc; cbn [result];
                match goal with
                | |- context [read_stats_json ?field json_doc] =>
                    instantiate (1 := field);
                    destruct (read_stats_json field json_doc); reflexivity
                end].
  - apply read_power_mode_time_int.
  - unfold NUMBERS. each_entry. intros value. reflexivity.
  - apply read_stats_json_cases.
Qed.

Lemma decoders_raise_exactly_witness :
  never_raises (decoder_of bit_to_bool) ∧
  read_power_mode_time "2" = Ok 60%Z ∧
  read_power_mode_time "" = Raise ValueError ∧
  read_stats_json "wifi" (Json.doc "[42]") = Raise AttributeError ∧
  read_stats_json "wifi" (Json.doc "{'wifi': 'high'}") = Raise ValueError ∧
  read_stats_json "wifi" (Json.doc "{'wifi': '42'}") = Ok (float_of_str "42.0").
Proof.
  destruct (decoders_raise_exactly ∅) as ((Hswitch & _) & _ & Hpower & _ & Hstats).
  split; [| split; [| split; [| split; [| split]]]].
  - exact (Forall_inv Hswitch (decoder_of bit_to_bool) eq_refl).
  - rewrite Hpower. reflexivity.
  - rewrite Hpower. reflexivity.
  - rewrite Hstats. reflexivity.
  - rewrite Hstats. reflexivity.
  - rewrite Hstats. reflexivity.
Defined.

(** *** The model hook *)

(** Each invocation of [update_device_model] writes one debug record and
    makes one call to the registry of the instance it was given, with the
    identifiers of the entity's device info when it has them and None
    otherwise.  What the registry holds afterwards is the host's affair. *)
Lemma update_device_model_call (hass : HomeAssistant) (entity : SensorEntity)
    (config_entry_id model : string) :
  update_device_model hass entity config_entry_id model =
    {| calls := [async_get_or_create hass config_entry_id
                   (device_info entity ≫= identifiers) model];
       hook_logged := [(DEBUG, "Set model")] |}.
Proof. destruct entity as [[info |]]; reflexivity. Qed.

Lemma update_device_model_in_table (models : gmap string string) :
  Forall (fun d => Sensor.on_receive d = Some update_device_model ->
                   Sensor.heishamon_topic_id d = Some "TOP92")
    (SENSORS models) ∧
  Exists (fun d => Sensor.on_receive d = Some update_device_model) (SENSORS models).
Proof.
  split.
  - unfold SENSORS. each_entry; cbn [Sensor.on_receive Sensor.heishamon_topic_id];
      intros Hhook; first [discriminate Hhook | reflexivity].
  - apply Exists_exists. eexists. split.
    + apply list_elem_of_lookup_2 with 57%nat. reflexivity.
    + reflexivity.
Qed.

(** *** The scenarios of the specification *)

Lemma read_power_mode_time_examples :
  read_power_mode_time "2" = Ok 60%Z ∧ read_power_mode_time "0" = Ok 0%Z.
Proof. split; reflexivity. Qed.

Lemma read_heatpump_model_spec (models : gmap string string) (value : string) :
  read_heatpump_model models value =
    match models !! value with
    | Some model => model
    | None => "Unknown model for HeishaMon"
    end.
Proof. unfold read_heatpump_model. destruct (models !! value); reflexivity. Qed.

Lemma end_to_end_scenario (models : gmap string string) :
  (d ← switch_of_topic "TOP0"; switch_decode d "1") = Some (Ok (PBool true)) ∧
  (d ← sensor_of_topic models "TOP20"; Some (sensor_decode d "1")) =
    Some (Ok (PStr "Tank")) ∧
  (d ← sensor_of_topic models "STAT1_uptime";
   Some (sensor_decode d (Json.doc "{'uptime': 5000, 'wifi': 10}"))) =
    Some (Ok (to_py (float_of_str "5.0"))) ∧
  (d ← sensor_of_topic models "STAT1_rssi";
   Some (sensor_decode d (Json.doc "{'uptime': 5000, 'wifi': 10}"))) =
    Some (Ok (to_py (float_of_str "10.0"))).
Proof. repeat split; vm_compute; reflexivity. Qed.

(** ** Further properties *)

(** *** Integers as text *)

Lemma decimal_of_uint_acc (d : Decimal.uint) (acc : positive) :
  Zpos (Pos.of_uint_acc d acc) = decimal (Zpos acc) d.
Proof.
  revert acc. induction d; intros acc; cbn [Pos.of_uint_acc decimal];
    [reflexivity | rewrite IHd; f_equal; lia ..].
Qed.

Lemma decimal_of_uint (d : Decimal.uint) : Z.of_N (Pos.of_uint d) = decimal 0 d.
Proof.
  induction d; cbn [Pos.of_uint decimal];
    [reflexivity | exact IHd | cbn [Z.of_N]; rewrite decimal_of_uint_acc; reflexivity ..].
Qed.

Lemma scan_digits_digit (c : ascii) (r : string) (acc : Z) (n : nat) :
  is_digit c = true ->
  scan_digits acc n (String c r) = scan_digits (acc * 10 + digit_val c) (S n) r.
Proof. intros Hc. cbn [scan_digits]. rewrite Hc. reflexivity. Qed.

Lemma scan_digits_uint (d : Decimal.uint) (acc : Z) (n : nat) :
  scan_digits acc n (NilEmpty.string_of_uint d) =
    (decimal acc d, (n + Decimal.nb_digits d)%nat, EmptyString).
Proof.
  revert acc n. induction d; intros acc n;
    cbn [NilEmpty.string_of_uint decimal Decimal.nb_digits];
    [rewrite Nat.add_0_r; reflexivity | ..];
    (rewrite scan_digits_digit by reflexivity; rewrite IHd;
     replace (S n + Decimal.nb_digits d)%nat with (n + S (Decimal.nb_digits d))%nat by lia;
     reflexivity).
Qed.

Lemma all_chars_uint (p : ascii -> bool) (d : Decimal.uint) :
  (∀ c, is_digit c = true -> p c = true) ->
  all_chars p (NilEmpty.string_of_uint d) = true.
Proof.
  intros Hp. induction d; cbn [NilEmpty.string_of_uint all_chars];
    [reflexivity | rewrite IHd, Hp by reflexivity; reflexivity ..].
Qed.

Lemma lstrip_no_space (c : ascii) (r : string) :
  is_space c = false -> lstrip (String c r) = String c r.
Proof. intros Hc. cbn [lstrip]. rewrite Hc. reflexivity. Qed.

Lemma rstrip_no_space (s : string) :
  all_chars (fun c => negb (is_space c)) s = true -> rstrip s = s.
Proof.
  induction s as [| c s IH]; [reflexivity |]. cbn [all_chars rstrip].
  intros [Hc Hs]%andb_prop. rewrite (IH Hs).
  destruct s; [| reflexivity].
  destruct (is_space c); [discriminate | reflexivity].
Qed.

Lemma remove_underscores_none (s : string) (prev : option ascii) :
  all_chars (fun c => negb (Ascii.eqb c "_")) s = true ->
  prev ≠ Some "_"%char ->
  remove_underscores prev s = Some s.
Proof.
  revert prev. induction s as [| c s IH]; intros prev Hs Hprev.
  - cbn [remove_underscores].
    destruct prev as [[[] [] [] [] [] [] [] []] |]; try reflexivity.
    contradiction Hprev; reflexivity.
  - cbn [all_chars] in Hs. apply andb_prop in Hs as [Hc Hs].
    cbn [remove_underscores].
    destruct (Ascii.eqb c "_") eqn:Ec; [discriminate |].
    rewrite (IH (Some c) Hs).
    + destruct prev as [[[] [] [] [] [] [] [] []] |]; try reflexivity.
      contradiction Hprev; reflexivity.
    + intros [= ->]. discriminate.
Qed.

Lemma scan_sign_digit (c : ascii) (r : string) :
  is_digit c = true -> scan_sign (String c r) = (false, String c r).
Proof. destruct c as [[] [] [] [] [] [] [] []]; (discriminate || reflexivity). Qed.

(** The decimal text of a natural number, and the same after a minus sign,
    read back as the number and as its opposite, unless the text has more
    digits than the limit allows. *)
Lemma int_of_str_uint (d : Decimal.uint) :
  d ≠ Decimal.Nil ->
  int_of_str (NilEmpty.string_of_uint d) =
    (if (Z.of_nat (Decimal.nb_digits d) <=? int_max_str_digits)%Z
     then Some (decimal 0 d) else None) ∧
  int_of_str (String "-" (NilEmpty.string_of_uint d)) =
    (if (Z.of_nat (Decimal.nb_digits d) <=? int_max_str_digits)%Z
     then Some (- decimal 0 d)%Z else None).
Proof.
  intros Hd.
  assert (Hspace : all_chars (fun c => negb (is_space c)) (NilEmpty.string_of_uint d) = true).
  { apply all_chars_uint. intros [[] [] [] [] [] [] [] []]; (discriminate || reflexivity). }
  assert (Hunder : all_chars (fun c => negb (Ascii.eqb c "_")) (NilEmpty.string_of_uint d) = true).
  { apply all_chars_uint. intros [[] [] [] [] [] [] [] []]; (discriminate || reflexivity). }
  assert (Hdigit : all_chars is_digit (NilEmpty.string_of_uint d) = true).
  { apply all_chars_uint. auto. }
  pose proof (scan_digits_uint d 0 0) as Hk. cbn [Nat.add] in Hk.
  destruct (Decimal.nb_digits d) as [| k] eqn:Hnb.
  { apply DecimalFacts.nb_digits_0 in Hnb. contradiction. }
  split.
  - unfold int_of_str, strip.
    destruct (NilEmpty.string_of_uint d) as [| c r] eqn:Hstr.
    { destruct d; (contradiction || discriminate). }
    cbn [all_chars] in Hspace, Hdigit.
    apply andb_prop in Hspace as [Hc Hr]. apply negb_true_iff in Hc.
    apply andb_prop in Hdigit as [Hdc _].
    rewrite (lstrip_no_space c r Hc).
    rewrite rstrip_no_space by (cbn [all_chars]; rewrite Hc, Hr; reflexivity).
    rewrite remove_underscores_none by (assumption || discriminate).
    cbn [mbind option_bind]. rewrite (scan_sign_digit c r Hdc), Hk. reflexivity.
  - unfold int_of_str, strip.
    rewrite lstrip_no_space by reflexivity.
    rewrite rstrip_no_space by (cbn [all_chars]; rewrite Hspace; reflexivity).
    rewrite remove_underscores_none by (first [discriminate | cbn [all_chars]; rewrite Hunder; reflexivity]).
    cbn [mbind option_bind scan_sign]. rewrite Hk. reflexivity.
Qed.

(** A digit string after an accumulator [acc] is worth [acc] shifted by
    the length of the string, plus less than one unit of that shift. *)
Lemma decimal_bounds (d : Decimal.uint) (acc : Z) :
  (0 <= acc)%Z ->
  (acc * 10 ^ Z.of_nat (Decimal.nb_digits d) <= decimal acc d
   < (acc + 1) * 10 ^ Z.of_nat (Decimal.nb_digits d))%Z.
Proof.
  revert acc. induction d; intros acc Hacc; cbn [decimal Decimal.nb_digits];
    [rewrite !Z.mul_1_r; lia | ..];
    (rewrite Nat2Z.inj_succ, Z.pow_succ_r by lia;
     match goal with
     | |- (_ <= decimal ?a d < _)%Z => pose proof (IHd a ltac:(lia)) as IH
     end;
     pose proof (Z.pow_pos_nonneg 10 (Z.of_nat (Decimal.nb_digits d)) ltac:(lia) ltac:(lia));
     nia).
Qed.

(** The decimal text of a positive number has no leading zero. *)
Lemma to_uint_head (p : positive) (d : Decimal.uint) : Pos.to_uint p ≠ Decimal.D0 d.
Proof.
  intros Hp.
  assert (Hnorm : Decimal.unorm (Pos.to_uint p) = Pos.to_uint p).
  { rewrite <- DecimalPos.Unsigned.to_of, DecimalPos.Unsigned.of_to. reflexivity. }
  rewrite Hp in Hnorm. unfold Decimal.unorm in Hnorm. cbn [Decimal.nzhead] in Hnorm.
  pose proof (DecimalFacts.nb_digits_nzhead d) as Hlen.
  destruct (Decimal.nzhead d) eqn:Hhead; try discriminate.
  - injection Hnorm as <-.
    pose proof (f_equal Pos.of_uint Hp) as Hval.
    rewrite DecimalPos.Unsigned.of_to in Hval. discriminate.
  - injection Hnorm as ->. cbn [Decimal.nb_digits] in Hlen. lia.
Qed.

(** A positive number is written with at most [k] digits exactly when it
    is below [10 ^ k]. *)
Lemma nb_digits_to_uint (p : positive) (k : Z) :
  (0 <= k)%Z ->
  (Z.of_nat (Decimal.nb_digits (Pos.to_uint p)) <=? k)%Z = (Zpos p <? 10 ^ k)%Z.
Proof.
  intros Hk.
  assert (Hval : decimal 0 (Pos.to_uint p) = Zpos p).
  { rewrite <- decimal_of_uint, DecimalPos.Unsigned.of_to. reflexivity. }
  pose proof (to_uint_head p) as Hhead.
  pose proof (DecimalPos.Unsigned.to_uint_nonnil p) as Hnil.
  pose proof (decimal_bounds (Pos.to_uint p) 0 ltac:(lia)) as [_ Hup].
  rewrite Hval, Z.add_0_l, Z.mul_1_l in Hup.
  assert (Hlow : (10 ^ (Z.of_nat (Decimal.nb_digits (Pos.to_uint p)) - 1) <= Zpos p)%Z).
  { destruct (Pos.to_uint p) as [| d | d | d | d | d | d | d | d | d | d];
      [contradiction | exfalso; exact (Hhead d eq_refl) | ..];
      (cbn [decimal Decimal.nb_digits] in Hval |- *;
       replace (Z.of_nat (S (Decimal.nb_digits d)) - 1)%Z
         with (Z.of_nat (Decimal.nb_digits d)) by lia;
       match type of Hval with
       | decimal ?a d = _ => pose proof (decimal_bounds d a ltac:(lia)) as [Hlow _]
       end;
       pose proof (Z.pow_pos_nonneg 10 (Z.of_nat (Decimal.nb_digits d))
                     ltac:(lia) ltac:(lia));
       nia). }
  set (digits := Z.of_nat (Decimal.nb_digits (Pos.to_uint p))) in *.
  destruct (Z.leb_spec digits k) as [Hle | Hgt]; symmetry.
  - apply Z.ltb_lt. eapply Z.lt_le_trans; [exact Hup |].
    apply Z.pow_le_mono_r; lia.
  - apply Z.ltb_ge. etransitivity; [| exact Hlow].
    apply Z.pow_le_mono_r; lia.
Qed.

(** [int(str(n)) == n] for every integer of at most [int_max_str_digits]
    digits, that is below [10 ^ int_max_str_digits] in magnitude; the
    decimal text of a larger one is refused. *)
Lemma int_of_str_of_int (n : Z) :
  int_of_str (str_of_int n) =
    if (Z.abs n <? 10 ^ int_max_str_digits)%Z then Some n else None.
Proof.
  rewrite <- (DecimalZ.of_to n) at 3. unfold str_of_int.
  destruct n as [| p | p]; [reflexivity | |];
    cbn [Z.to_int NilZero.string_of_int Z.of_int Z.abs];
    pose proof (DecimalPos.Unsigned.to_uint_nonnil p) as Hnil;
    destruct (int_of_str_uint (Pos.to_uint p) Hnil) as [Hpos Hneg];
    rewrite <- decimal_of_uint in Hpos, Hneg;
    rewrite nb_digits_to_uint in Hpos, Hneg by discriminate;
    unfold NilZero.string_of_uint;
    destruct (Pos.to_uint p) eqn:Hp; try contradiction; assumption.
Qed.

Lemma int_of_str_of_int_small (n : Z) :
  (Z.abs n < 10 ^ int_max_str_digits)%Z -> int_of_str (str_of_int n) = Some n.
Proof.
  intros Hn%Z.ltb_lt. rewrite int_of_str_of_int, Hn. reflexivity.
Qed.

Lemma str_of_int_inj (n m : Z) : str_of_int n = str_of_int m -> n = m.
Proof.
  unfold str_of_int. intros H. apply DecimalZ.to_int_inj.
  assert (Hnil : ∀ k : Z, Z.to_int k ≠ Decimal.Pos Decimal.Nil ∧
                           Z.to_int k ≠ Decimal.Neg Decimal.Nil).
  { intros [| p | p]; split; cbn [Z.to_int]; try discriminate;
      intros [= Hp]; exact (DecimalPos.Unsigned.to_uint_nonnil p Hp). }
  apply (f_equal NilZero.int_of_string) in H.
  rewrite !NilZero.isi in H by apply Hnil. congruence.
Qed.

(** *** The operating mode, both ways *)

(** The mode names are pairwise distinct, so the encoder never has two
    candidates to choose between. *)
Lemma mode_names_distinct : NoDup mode_names.
Proof. by_evaluation. Qed.

(** X1: whenever [operating_mode_to_state] returns a code for a text, the
    code is one of the supported ones and [read_operating_mode_state] maps
    it back to that text. *)
Theorem operating_mode_to_state_inverse (value code : string) :
  operating_mode_to_state value = Some code ->
  code ∈ supported_modes ∧ read_operating_mode_state code = value.
Proof.
  unfold operating_mode_to_state, OPERATING_MODE_TO_STRING.
  cbn [omap list_omap].
  repeat match goal with
  | |- context [String.eqb ?name value] =>
      let E := fresh "E" in
      destruct (String.eqb name value) eqn:E;
      [apply String.eqb_eq in E; subst value; vm_compute;
       intros [= <-]; split; [unfold supported_modes; in_list | reflexivity]
      |]
  end.
  discriminate.
Qed.

Lemma operating_mode_to_state_inverse_witness :
  "3" ∈ supported_modes ∧ read_operating_mode_state "3" = "DHW only".
Proof. apply (operating_mode_to_state_inverse "DHW only" "3"). reflexivity. Defined.

Lemma operating_mode_to_state_cases (value : string) :
  (∃ code, (code, value) ∈ OPERATING_MODE_TO_STRING ∧
           operating_mode_to_state value = Some code) ∨
  ((value ∉ mode_names) ∧ operating_mode_to_state value = None).
Proof.
  unfold operating_mode_to_state, OPERATING_MODE_TO_STRING.
  unfold mode_names, OPERATING_MODE_TO_STRING.
  cbn [omap list_omap fmap list_fmap snd].
  repeat match goal with
  | |- context [String.eqb ?name value] =>
      let E := fresh "E" in
      destruct (String.eqb name value) eqn:E;
      [apply String.eqb_eq in E; subst value; left; eexists;
       split; [| vm_compute; reflexivity]; in_list
      |]
  end.
  right. split; [| reflexivity].
  intros Hin.
  repeat (apply elem_of_cons in Hin as [-> | Hin];
          [rewrite String.eqb_refl in *; discriminate |]).
  inversion Hin.
Qed.

(** X2: [operating_mode_to_state] returns None exactly for the texts that
    are not one of the mode names of [OPERATING_MODE_TO_STRING]. *)
Theorem operating_mode_to_state_none (value : string) :
  operating_mode_to_state value = None ↔ value ∉ mode_names.
Proof.
  destruct (operating_mode_to_state_cases value) as [(code & Hin & ->) | [Hnot ->]].
  - split; [discriminate |]. intros Hnot. contradiction Hnot.
    apply list_elem_of_fmap. exists (code, value). split; [reflexivity | exact Hin].
  - split; [intros _; exact Hnot | reflexivity].
Qed.

(** X3: [read_operating_mode_state] is injective: two different payloads,
    supported codes or not, never decode to the same state. *)
Theorem read_operating_mode_state_inj (a b : string) :
  read_operating_mode_state a = read_operating_mode_state b -> a = b.
Proof.
  unfold read_operating_mode_state, OPERATING_MODE_TO_STRING. cbn [dict_get].
  repeat match goal with
  | |- context [String.eqb ?k a] =>
      let E := fresh "E" in
      destruct (String.eqb k a) eqn:E; [apply String.eqb_eq in E; subst a |]
  end;
  repeat match goal with
  | |- context [String.eqb ?k b] =>
      let E := fresh "E" in
      destruct (String.eqb k b) eqn:E; [apply String.eqb_eq in E; subst b |]
  end;
  intros H; vm_compute in H; congruence.
Qed.

Lemma read_operating_mode_state_inj_witness :
  read_operating_mode_state "1" = read_operating_mode_state "1" ∧ "1" = "1".
Proof.
  split; [reflexivity |]. apply read_operating_mode_state_inj. reflexivity.
Defined.

(** X4: the options of the mode select (SET9) are the mode names, and the
    state decoded from a code is one of them exactly when the code is a
    supported one; any other code decodes to a text the select does not
    offer. *)
Theorem operating_mode_state_offered :
  Select.options <$> select_of_topic "SET9" = Some mode_names ∧
  ∀ code : string, read_operating_mode_state code ∈ mode_names ↔ code ∈ supported_modes.
Proof.
  split; [reflexivity |]. intros code. split.
  - intros Hin. destruct (decide (code ∈ supported_modes)) as [| Hnot]; [assumption |].
    rewrite (read_operating_mode_state_unknown code Hnot) in Hin.
    unfold mode_names, OPERATING_MODE_TO_STRING in Hin. cbn [fmap list_fmap snd] in Hin.
    repeat (apply elem_of_cons in Hin as [Hin | Hin];
            [vm_compute in Hin; discriminate Hin |]).
    inversion Hin.
  - intros Hin. unfold supported_modes in Hin.
    repeat (apply elem_of_cons in Hin as [-> | Hin];
            [unfold mode_names; vm_compute; in_list |]).
    inversion Hin.
Qed.

(** *** The quiet mode, both ways *)

(** X5: the options of the quiet-mode select (SET3) are Off, 1, 2, 3 and
    Scheduled, and the state decoded from a payload is one of them exactly
    when the payload is one of 0, 1, 2, 3, 4, Off and Scheduled. *)
Theorem quiet_mode_state_offered :
  Select.options <$> select_of_topic "SET3" = Some ["Off"; "1"; "2"; "3"; "Scheduled"] ∧
  ∀ value : string,
    read_quiet_mode value ∈ ["Off"; "1"; "2"; "3"; "Scheduled"] ↔
    value ∈ quiet_mode_payloads.
Proof.
  split; [reflexivity |]. intros value. unfold read_quiet_mode, quiet_mode_payloads.
  destruct (String.eqb value "4") eqn:E4;
    [apply String.eqb_eq in E4 as ->; split; intros _; in_list |].
  destruct (String.eqb value "0") eqn:E0;
    [apply String.eqb_eq in E0 as ->; split; intros _; in_list |].
  apply String.eqb_neq in E4, E0.
  rewrite !elem_of_cons, !elem_of_nil. intuition congruence.
Qed.

(** X6: decoding a quiet-mode payload before encoding it changes nothing,
    [write_quiet_mode (read_quiet_mode v)] is [write_quiet_mode v], and
    decoding twice is decoding once. *)
Theorem quiet_mode_decode_then_encode (value : string) :
  write_quiet_mode (read_quiet_mode value) = write_quiet_mode value ∧
  read_quiet_mode (read_quiet_mode value) = read_quiet_mode value.
Proof.
  unfold read_quiet_mode.
  destruct (String.eqb value "4") eqn:E4;
    [apply String.eqb_eq in E4 as ->; split; reflexivity |].
  destruct (String.eqb value "0") eqn:E0;
    [apply String.eqb_eq in E0 as ->; split; reflexivity |].
  rewrite E4, E0. split; reflexivity.
Qed.

(** X7: for every payload that [int] reads as an integer [n], whatever its
    white space, sign, leading zeros or size, encoding the decoded payload
    returns [n]; the levels 0 to 4 are not checked. *)
Theorem quiet_mode_round_trip_int (value : string) (n : Z) :
  int_of_str value = Some n ->
  write_quiet_mode (read_quiet_mode value) = Ok n.
Proof.
  intros Hint. rewrite (proj1 (quiet_mode_decode_then_encode value)).
  unfold write_quiet_mode.
  destruct (String.eqb value "Off") eqn:Eoff;
    [apply String.eqb_eq in Eoff as ->; discriminate Hint |].
  destruct (String.eqb value "Scheduled") eqn:Esched;
    [apply String.eqb_eq in Esched as ->; discriminate Hint |].
  cbn [builtin_int]. rewrite Hint. reflexivity.
Qed.

Lemma quiet_mode_round_trip_int_witness :
  write_quiet_mode (read_quiet_mode " +3 ") = Ok 3%Z.
Proof. apply (quiet_mode_round_trip_int " +3 " 3). reflexivity. Defined.

Lemma quiet_mode_round_trip_every_level (n : Z) :
  (Z.abs n < 10 ^ int_max_str_digits)%Z ->
  write_quiet_mode (read_quiet_mode (str_of_int n)) = Ok n.
Proof. intros Hn. apply quiet_mode_round_trip_int, int_of_str_of_int_small, Hn. Qed.

(** X8: every option that a select offers can be encoded: the encoder
    returns a payload, not None, without raising, and decoding the text of
    that payload gives the option back. *)
Theorem select_options_round_trip :
  Forall (fun d =>
    ∃ decode encode,
      Select.state d = Some decode ∧
      Select.state_to_mqtt d = Some encode ∧
      ∀ option : string, option ∈ Select.options d ->
        ∃ payload text,
          result (encode option) = Ok payload ∧
          payload ≠ PNone ∧
          payload_text payload = Some text ∧
          result (decode text) = Ok (PStr option))
    SELECTS.
Proof.
  unfold SELECTS. each_entry; cbn [Select.state Select.state_to_mqtt Select.options];
    eexists _, _; (split; [reflexivity |]); (split; [reflexivity |]);
    intros option Hin; cbn [fmap list_fmap snd OPERATING_MODE_TO_STRING] in Hin;
    repeat (apply elem_of_cons in Hin as [-> | Hin];
            [eexists _, _; repeat split; [discriminate | reflexivity ..] |]);
    inversion Hin.
Qed.

Lemma select_options_round_trip_witness :
  ∃ d decode encode payload text,
    SELECTS !! 0%nat = Some d ∧
    Select.state d = Some decode ∧
    Select.state_to_mqtt d = Some encode ∧
    result (encode "Scheduled") = Ok payload ∧
    payload_text payload = Some text ∧
    result (decode text) = Ok (PStr "Scheduled").
Proof.
  destruct (Forall_lookup_1 _ _ 0%nat _ select_options_round_trip eq_refl)
    as (decode & encode & Hdec & Henc & Hround).
  destruct (Hround "Scheduled") as (payload & text & H1 & _ & H2 & H3).
  { cbn [Select.options]. in_list. }
  eexists _, decode, encode, payload, text. repeat split; eassumption || reflexivity.
Defined.

(** *** The powerful mode *)

(** X9: [read_power_mode_time] returns thirty times the integer of the
    payload.  On the decimal text of an integer n, negative ones included,
    it returns 30 n as long as n is written with at most
    [int_max_str_digits] (4300) digits, that is [|n| < 10 ^ 4300]; on the
    text of a larger integer [int] refuses the payload and the decoder
    raises ValueError.  Every value it returns is thirty times what [int]
    reads. *)
Theorem read_power_mode_time_scale :
  (∀ n : Z,
     read_power_mode_time (str_of_int n) =
       if (Z.abs n <? 10 ^ int_max_str_digits)%Z
       then Ok (30 * n)%Z else Raise ValueError) ∧
  (∀ (value : string) (minutes : Z),
     read_power_mode_time value = Ok minutes ->
     ∃ n, int_of_str value = Some n ∧ minutes = (30 * n)%Z).
Proof.
  split.
  - intros n. rewrite read_power_mode_time_int, int_of_str_of_int.
    destruct (Z.abs n <? 10 ^ int_max_str_digits)%Z; [f_equal; lia | reflexivity].
  - intros value minutes. rewrite read_power_mode_time_int.
    destruct (int_of_str value) as [n |]; [| discriminate].
    intros [= <-]. exists n. split; [reflexivity | lia].
Qed.

Lemma read_power_mode_time_scale_witness :
  read_power_mode_time (str_of_int 4) = Ok 120%Z ∧
  read_power_mode_time (str_of_int (- 10 ^ 4300)) = Raise ValueError ∧
  ∃ n, int_of_str " 1_0 " = Some n ∧ 300%Z = (30 * n)%Z.
Proof.
  split; [| split].
  - rewrite (proj1 read_power_mode_time_scale 4%Z). vm_compute. reflexivity.
  - rewrite (proj1 read_power_mode_time_scale (- 10 ^ 4300)%Z). vm_compute. reflexivity.
  - apply (proj2 read_power_mode_time_scale " 1_0 " 300%Z). reflexivity.
Defined.

(** *** Binary sensors *)

(** X10: every binary sensor belongs to the heat pump and decodes with
    [bit_to_bool]: for every payload its state is True, False or None as
    [bit_to_bool] says, it never raises and it logs nothing. *)
Theorem binary_sensors_decode :
  Forall (fun d =>
    BinarySensor.device d = HEATPUMP ∧
    ∃ decode,
      BinarySensor.state d = Some decode ∧
      ∀ payload : string,
        decode payload = {| result := Ok (to_py (bit_to_bool payload)); logged := [] |})
    BINARY_SENSORS.
Proof.
  unfold BINARY_SENSORS. each_entry; (split; [reflexivity |]);
    eexists; (split; [reflexivity |]); intros payload; reflexivity.
Qed.

(** *** Statistics fields that are not numbers *)

(** X11: on a JSON object, a field that holds a non-empty string is
    converted by [float], so the text "0" gives 0.0 where the number 0 gives
    None, and a text that is no number raises ValueError; true gives 1.0;
    false, null, an empty string, list or object give None; a non-empty
    list or object raises TypeError. *)
Theorem read_stats_json_other_fields (field_name json_doc : string)
    (d : list (string * pyval)) :
  Json.loads json_doc = Ok (PDict d) ->
  (∀ s : string, dict_get field_name d = Some (PStr s) ->
     read_stats_json field_name json_doc =
       if String.eqb s "" then Ok None
       else Some <$> of_option ValueError (float_of_str s)) ∧
  (∀ b : bool, dict_get field_name d = Some (PBool b) ->
     read_stats_json field_name json_doc =
       Ok (if b then Some (float_of_Z 1) else None)) ∧
  (dict_get field_name d = Some PNone -> read_stats_json field_name json_doc = Ok None) ∧
  (∀ l, dict_get field_name d = Some (PList l) ->
     read_stats_json field_name json_doc =
       match l with [] => Ok None | _ => Raise TypeError end) ∧
  (∀ o, dict_get field_name d = Some (PDict o) ->
     read_stats_json field_name json_doc =
       match o with [] => Ok None | _ => Raise TypeError end).
Proof.
  intros Hdoc. rewrite read_stats_json_cases, Hdoc.
  repeat split.
  - intros s ->. cbn [truthy builtin_float]. destruct (String.eqb s ""); reflexivity.
  - intros [] ->; reflexivity.
  - intros ->. reflexivity.
  - intros [] ->; reflexivity.
  - intros [] ->; reflexivity.
Qed.

Lemma read_stats_json_other_fields_witness :
  read_stats_json "wifi" (Json.doc "{'wifi': '0'}") = Ok (Some (float_zero false)) ∧
  read_stats_json "wifi" (Json.doc "{'wifi': true}") = Ok (float_of_str "1.0") ∧
  read_stats_json "wifi" (Json.doc "{'wifi': [0]}") = Raise TypeError.
Proof.
  split; [| split].
  - apply (proj1 (read_stats_json_other_fields "wifi" (Json.doc "{'wifi': '0'}")
                    [("wifi", PStr "0")] eq_refl) "0" eq_refl).
  - apply (proj1 (proj2 (read_stats_json_other_fields "wifi" (Json.doc "{'wifi': true}")
                           [("wifi", PBool true)] eq_refl)) true eq_refl).
  - apply (proj1 (proj2 (proj2 (proj2
             (read_stats_json_other_fields "wifi" (Json.doc "{'wifi': [0]}")
                [("wifi", PList [PInt 0])] eq_refl)))) [PInt 0] eq_refl).
Defined.

(** *** The statistics sensors *)

(** X12: each of the sensors of the bridge reads one field of the
    statistics document, a different field each, and returns what
    [read_stats_json] returns for it; only the uptime sensor passes the
    value through [ms_to_secs]. *)
Theorem stats_sensors_fields (models : gmap string string) :
  NoDup stats_fields.*2 ∧
  Forall (fun d =>
    Sensor.device d = HEISHAMON ->
    ∃ topic field_name decode,
      Sensor.heishamon_topic_id d = Some topic ∧
      dict_get topic stats_fields = Some field_name ∧
      Sensor.state d = Some decode ∧
      ∀ json_doc : string,
        decode json_doc =
          {| result :=
               to_py <$> (if String.eqb field_name "uptime"
                          then ms_to_secs <$> read_stats_json field_name json_doc
                          else read_stats_json field_name json_doc);
             logged := [] |})
    (SENSORS models).
Proof.
  split; [by_evaluation |].
  unfold SENSORS. each_entry; cbn [Sensor.device Sensor.heishamon_topic_id Sensor.state];
    intros Hdevice;
    first [discriminate Hdevice
          | eexists _, _, _; (split; [reflexivity |]); (split; [reflexivity |]);
            (split; [reflexivity |]); intros json_doc;
            unfold decoder_of, outcome_of, returns_exc; cbn [String.eqb Ascii.eqb Bool.eqb];
            destruct (read_stats_json _ json_doc) as [[] |]; reflexivity].
Qed.

(** *** The registry as a whole *)

(** X13: every entry of the five tables has a topic id, and the topic ids
    are pairwise distinct across the tables taken together. *)
Theorem registry_topic_ids_unique (models : gmap string string) :
  NoDup (registry_topic_ids models) ∧ None ∉ registry_topic_ids models.
Proof. split; by_evaluation. Qed.

(** X14: the display names are pairwise distinct within the numbers, the
    selects, the switches and the binary sensors; among the sensors TOP56
    and TOP57 both carry the name "Aquarea Zone1: Actual Temperature", and
    that is the only repetition. *)
Theorem sensor_names (models : gmap string string) :
  (NoDup (Number.name <$> NUMBERS) ∧
   NoDup (Select.name <$> SELECTS) ∧
   NoDup (Switch.name <$> MQTT_SWITCHES) ∧
   NoDup (BinarySensor.name <$> BINARY_SENSORS)) ∧
  Sensor.name <$> sensor_of_topic models "TOP56" = Some "Aquarea Zone1: Actual Temperature" ∧
  Sensor.name <$> sensor_of_topic models "TOP57" = Some "Aquarea Zone1: Actual Temperature" ∧
  NoDup (Sensor.name <$>
           filter (fun d => Sensor.heishamon_topic_id d ≠ Some "TOP57") (SENSORS models)).
Proof.
  split; [repeat split; by_evaluation |].
  split; [reflexivity |]. split; [reflexivity |]. by_evaluation.
Qed.

(** X15: the command topics of the numbers, selects and switches are
    pairwise distinct and none is left at the default "void/topic"; all lie
    under panasonic_heat_pump/commands/ but that of the holiday switch
    (TOP19), which is the switch's own state key, and TOP19 is the only
    switch whose command topic is its key. *)
Theorem command_topics_distinct :
  NoDup command_topics ∧
("void/topic" ∉ command_topics) ∧
  Forall (fun d =>
    Switch.command_topic d = Switch.key d ↔ Switch.heishamon_topic_id d = Some "TOP19")
    MQTT_SWITCHES ∧
  Forall (fun topic =>
    topic = "panasonic_heat_pump/main/Holiday_Mode_State" ∨
    String.prefix "panasonic_heat_pump/commands/" topic = true)
    command_topics.
Proof.
  split; [by_evaluation |]. split; [by_evaluation |]. split.
  - unfold MQTT_SWITCHES. each_entry; cbn [Switch.command_topic Switch.key Switch.heishamon_topic_id];
      split; first [discriminate | reflexivity].
  - unfold command_topics, NUMBERS, SELECTS, MQTT_SWITCHES.
    cbn [fmap list_fmap app Number.command_topic Select.command_topic Switch.command_topic].
    each_entry; first [left; reflexivity | right; reflexivity].
Qed.

(** X16: the only keys of a writable entity that a sensor uses too are
    DHW_Target_Temp (the number) and Operating_Mode_State (the mode
    select); otherwise the keys of the numbers, selects, switches and
    binary sensors are distinct from each other and from the sensors', and
    the mode select and the sensor TOP4 decode their shared key with the
    same function. *)
Theorem keys_shared_between_tables (models : gmap string string) :
  filter (fun k => k ∈ Sensor.key <$> SENSORS models) writable_keys =
    ["panasonic_heat_pump/main/DHW_Target_Temp";
     "panasonic_heat_pump/main/Operating_Mode_State"] ∧
  NoDup (writable_keys ++ (BinarySensor.key <$> BINARY_SENSORS)) ∧
  Forall (fun k => k ∉ Sensor.key <$> SENSORS models) (BinarySensor.key <$> BINARY_SENSORS) ∧
  Sensor.state <$> sensor_of_topic models "TOP4" = Select.state <$> select_of_topic "SET9".
Proof.
  split; [vm_compute; reflexivity |]. split; [by_evaluation |].
  split; [by_evaluation | reflexivity].
Qed.

(** X17: every key of a number, select, switch, binary sensor and
    heat-pump sensor lies under panasonic_heat_pump/main/. *)
Theorem state_topics_namespace (models : gmap string string) :
  Forall (fun k => String.prefix "panasonic_heat_pump/main/" k = true)
    (writable_keys ++ (BinarySensor.key <$> BINARY_SENSORS) ++
     (Sensor.key <$> sensors_of HEATPUMP (SENSORS models))).
Proof. by_evaluation. Qed.

(** *** The model hook in the table *)

(** X18: [update_device_model] is the hook of exactly one entry, TOP92,
    whose decoder is [read_heatpump_model]; called with the state decoded
    from a payload it makes one registry call that carries the model of the
    table, or "Unknown model for HeishaMon" for a code the table lacks,
    with the entity's identifiers if it has a device info with some and
    None otherwise. *)
Theorem model_hook_in_table (models : gmap string string) :
  Forall (fun d => ∀ hook, Sensor.on_receive d = Some hook ->
            Sensor.heishamon_topic_id d = Some "TOP92" ∧
            hook = update_device_model ∧
            Sensor.state d = Some (decoder_of (read_heatpump_model models)))
    (SENSORS models) ∧
  (∃ d, sensor_of_topic models "TOP92" = Some d ∧
        Sensor.on_receive d = Some update_device_model) ∧
  ∀ (hass : HomeAssistant) (entity : SensorEntity) (config_entry_id payload : string),
    calls (update_device_model hass entity config_entry_id
             (read_heatpump_model models payload)) =
      [async_get_or_create hass config_entry_id
         (device_info entity ≫= identifiers)
         (match models !! payload with
          | Some model => model
          | None => "Unknown model for HeishaMon"
          end)].
Proof.
  split; [| split].
  - unfold SENSORS.
    each_entry; cbn [Sensor.on_receive Sensor.heishamon_topic_id Sensor.state];
      intros hook Hhook;
      first [discriminate Hhook | injection Hhook as <-; repeat split].
  - eexists. split; reflexivity.
  - intros hass entity config_entry_id payload.
    rewrite update_device_model_call, read_heatpump_model_spec. reflexivity.
Qed.

Lemma model_hook_in_table_witness :
  ∃ d, SENSORS ∅ !! 57%nat = Some d ∧
       Sensor.heishamon_topic_id d = Some "TOP92" ∧
       Sensor.state d = Some (decoder_of (read_heatpump_model ∅)).
Proof.
  eexists. split; [reflexivity |].
  destruct (Forall_lookup_1 _ _ 57%nat _ (proj1 (model_hook_in_table ∅)) eq_refl
              update_device_model eq_refl) as (Htopic & _ & Hstate).
  split; [exact Htopic | exact Hstate].
Defined.

(** *** The number entity *)

(** X19: the number entity decodes the decimal text of an integer to that
    integer, inside its bounds of 48 and 60 or not, as long as the integer
    is written with at most [int_max_str_digits] (4300) digits, that is
    [|n| < 10 ^ 4300]; on the text of a larger integer the decoder raises
    ValueError.  Its encoder maps an integer to itself and the float of
    every integer within the bounds to that integer. *)
Theorem number_decode_encode :
  Forall (fun d =>
    ∃ decode encode,
      Number.state d = Some decode ∧
      Number.state_to_mqtt d = Some encode ∧
      (∀ n : Z,
         result (decode (str_of_int n)) =
           if (Z.abs n <? 10 ^ int_max_str_digits)%Z
           then Ok (PInt n) else Raise ValueError) ∧
      (∀ n : Z, result (encode (PInt n)) = Ok (PInt n)) ∧
      (∀ n : Z, (Number.native_min_value d <= n <= Number.native_max_value d)%Z ->
         result (encode (PFloat (float_of_Z n))) = Ok (PInt n)))
    NUMBERS.
Proof.
  unfold NUMBERS. each_entry.
  eexists _, _. split; [reflexivity |]. split; [reflexivity |].
  cbn [Number.native_min_value Number.native_max_value].
  split; [| split].
  - intros n. unfold decoder_of, outcome_of, returns_exc, compose. cbn [result builtin_int].
    rewrite int_of_str_of_int.
    destruct (Z.abs n <? 10 ^ int_max_str_digits)%Z; reflexivity.
  - intros n. reflexivity.
  - intros n Hn.
    assert (Hcases : n ∈ (Z.add 48 ∘ Z.of_nat) <$> seq 0 13).
    { apply list_elem_of_fmap. exists (Z.to_nat (n - 48)). split.
      - unfold compose. lia.
      - apply elem_of_seq. lia. }
    cbn [seq fmap list_fmap compose] in Hcases.
    repeat (apply elem_of_cons in Hcases as [-> | Hcases]; [reflexivity |]).
    inversion Hcases.
Qed.

Lemma number_decode_encode_witness :
  ∃ d decode encode,
    NUMBERS !! 0%nat = Some d ∧
    Number.state d = Some decode ∧
    Number.state_to_mqtt d = Some encode ∧
    result (decode (str_of_int 55)) = Ok (PInt 55) ∧
    result (decode (str_of_int (10 ^ 4300))) = Raise ValueError ∧
    result (encode (PFloat (float_of_Z 55))) = Ok (PInt 55).
Proof.
  destruct (Forall_lookup_1 _ _ 0%nat _ number_decode_encode eq_refl)
    as (decode & encode & Hdec & Henc & Htext & _ & Hfloat).
  eexists _, decode, encode. split; [reflexivity |].
  split; [exact Hdec |]. split; [exact Henc |].
  split; [| split].
  - rewrite (Htext 55%Z). vm_compute. reflexivity.
  - rewrite (Htext (10 ^ 4300)%Z). vm_compute. reflexivity.
  - apply Hfloat. cbn [Number.native_min_value Number.native_max_value]. lia.
Defined.

(** *** Units *)

(** X20: among the sensors the temperature class goes with the unit °C,
    the power class with W, the frequency class with Hz and the current
    class with A, each both ways, and every sensor of the bridge is in the
    diagnostic category. *)
Theorem sensor_units (models : gmap string string) :
  Forall (fun d =>
    (Sensor.device_class d = Some TEMPERATURE ↔
       Sensor.native_unit_of_measurement d = Some "°C") ∧
    (Sensor.device_class d = Some POWER ↔ Sensor.native_unit_of_measurement d = Some "W") ∧
    (Sensor.device_class d = Some FREQUENCY ↔ Sensor.native_unit_of_measurement d = Some "Hz") ∧
    (Sensor.device_class d = Some CURRENT ↔ Sensor.native_unit_of_measurement d = Some "A") ∧
    (Sensor.device d = HEISHAMON -> Sensor.entity_category d = Some DIAGNOSTIC))
    (SENSORS models).
Proof.
  unfold SENSORS.
  each_entry;
    cbn [Sensor.device_class Sensor.native_unit_of_measurement Sensor.device
         Sensor.entity_category];
    repeat split; intros H; first [discriminate H | reflexivity].
Qed.

(** *** Switches, both ways *)

Lemma bit_to_bool_inverse (value : string) (b : bool) :
  bit_to_bool value = Some b ↔ value = if b then "1" else "0".
Proof.
  unfold bit_to_bool.
  destruct (String.eqb value "1") eqn:E1.
  { apply String.eqb_eq in E1 as ->. destruct b; split; congruence. }
  destruct (String.eqb value "0") eqn:E0.
  { apply String.eqb_eq in E0 as ->. destruct b; split; congruence. }
  apply String.eqb_neq in E1, E0. destruct b; split; congruence.
Qed.

(** X21: a switch decodes a payload to True exactly when the payload is
    its "on" payload and to False exactly when it is its "off" payload. *)
Theorem switch_decode_inverse :
  Forall (fun d => ∀ (payload : string) (b : bool),
    switch_decode d payload = Some (Ok (PBool b)) ↔
    payload = if b then Switch.payload_on d else Switch.payload_off d)
    MQTT_SWITCHES.
Proof.
  unfold MQTT_SWITCHES. each_entry; intros payload b;
    unfold switch_decode;
    cbn [Switch.state Switch.payload_on Switch.payload_off mbind option_bind];
    unfold decoder_of, outcome_of, returns_value; cbn [result];
    rewrite <- bit_to_bool_inverse;
    destruct (bit_to_bool payload) as [[] |]; destruct b;
    cbv [to_py option_to_py bool_to_py]; split; congruence.
Qed.
